(** * Kshana backend packaging workflow: a shallow embedding

    This development embeds the three Python files of [backend-build/]:

    - [build.py]: the packaging workflow (source acquisition, environment
      provisioning, bundle build);
    - [entry.py]: the runtime entry wrapper of the bundled executable;
    - [pyi_rth_google_adk_tools.py]: the PyInstaller runtime hook.

    Python code that touches the outside world is written in a state and
    exception monad over an explicit state (file system tree, output trace,
    the mutable [argparse.Namespace]).  Whatever the script delegates to
    another program ([git], [python -m venv], [pip], [PyInstaller], the
    version probe) is a parameter of the model: the theorems hold for every
    behaviour of those programs. *)

From Stdlib Require Import ZArith Ascii String.
From stdpp Require Import gmap strings list.

Local Set Warnings "-register-all".
Local Open Scope string_scope.
Local Open Scope Z_scope.
Local Open Scope list_scope.

(** ** Python string operations *)

Module PyStr.

(** [str.lower] on the ASCII letters.  Bytes above 127 are left alone:
    no code point outside ASCII lowercases to a prefix of ["darwin"] or
    ["windows"], so prefix tests against those two words agree with
    Python's. *)
Definition lower_ascii (c : ascii) : ascii :=
  let n := nat_of_ascii c in
  if ((65 <=? n)%nat && (n <=? 90)%nat)%bool then ascii_of_nat (n + 32) else c.

Fixpoint lower (s : string) : string :=
  match s with
  | EmptyString => EmptyString
  | String c r => String (lower_ascii c) (lower r)
  end.

(** [s.startswith(p)] *)
Definition startswith (s p : string) : bool := String.prefix p s.

Fixpoint rev_acc (s acc : string) : string :=
  match s with
  | EmptyString => acc
  | String c r => rev_acc r (String c acc)
  end.

Definition rev (s : string) : string := rev_acc s EmptyString.

(** [s.endswith(p)] *)
Definition endswith (s p : string) : bool := String.prefix (rev p) (rev s).

(** The ASCII characters [str.isspace] accepts: tab, line feed, vertical
    tab, form feed, carriage return, the four separators 28..31, space. *)
Definition is_space (c : ascii) : bool :=
  let n := nat_of_ascii c in
  (((9 <=? n)%nat && (n <=? 13)%nat) || ((28 <=? n)%nat && (n <=? 32)%nat))%bool.

Fixpoint lstrip (s : string) : string :=
  match s with
  | EmptyString => EmptyString
  | String c r => if is_space c then lstrip r else s
  end.

(** [s.strip()] *)
Definition strip (s : string) : string := rev (lstrip (rev (lstrip s))).

(** [s.split(sep)] for a one-character separator: always at least one
    field, empty fields kept. *)
Fixpoint split (sep : ascii) (s : string) : list string :=
  match s with
  | EmptyString => [EmptyString]
  | String c r =>
      if Ascii.eqb c sep then EmptyString :: split sep r
      else match split sep r with
           | f :: fs => String c f :: fs
           | [] => [String c EmptyString]
           end
  end.

(** [sep.join(parts)] *)
Definition join (sep : string) (parts : list string) : string :=
  String.concat sep parts.

Definition digit_of (c : ascii) : option Z :=
  let n := nat_of_ascii c in
  if ((48 <=? n)%nat && (n <=? 57)%nat)%bool then Some (Z.of_nat n - 48) else None.

(** Digits of a decimal literal, most significant first.  [prev] says
    whether the previous character was a digit: an underscore is accepted
    only between two digits. *)
Fixpoint digits (s : string) (prev : bool) (acc : Z) : option Z :=
  match s with
  | EmptyString => if prev then Some acc else None
  | String c r =>
      match digit_of c with
      | Some d => digits r true (10 * acc + d)
      | None => if (Ascii.eqb c "_" && prev)%bool then digits r false acc else None
      end
  end.

(** The white space [int] skips around an ASCII literal: C's [isspace],
    that is tab to carriage return and space.  Unlike [str.strip] it keeps
    the separators 28..31, so that a literal led by one of them is a
    [ValueError]. *)
Definition is_cspace (c : ascii) : bool :=
  let n := nat_of_ascii c in
  (((9 <=? n)%nat && (n <=? 13)%nat) || (n =? 32)%nat)%bool.

Fixpoint lstrip_c (s : string) : string :=
  match s with
  | EmptyString => EmptyString
  | String c r => if is_cspace c then lstrip_c r else s
  end.

Definition strip_c (s : string) : string := rev (lstrip_c (rev (lstrip_c s))).

(** [s.isascii()]: every code point is below 128.  On such strings the
    operations of this module are Python's; on others Python also strips
    white space and reads decimal digits that are not ASCII. *)
Fixpoint isascii (s : string) : bool :=
  match s with
  | EmptyString => true
  | String c r => ((nat_of_ascii c <? 128)%nat && isascii r)%bool
  end.

(** [int(s)] in base 10 on ASCII input: surrounding white space, an
    optional sign, digits with single underscores between them.  [None]
    is Python's [ValueError]. *)
Definition int (s : string) : option Z :=
  match strip_c s with
  | String "-" r => Z.opp <$> digits r false 0
  | String "+" r => digits r false 0
  | r => digits r false 0
  end.

End PyStr.

(** ** Paths

    A [pathlib.Path] is modelled after [resolve()]: an absolute path with no
    symbolic link and no [..] segment, kept as the list of its components
    from the root. *)

Definition path := list string.

Module Path.

(** [p / name] *)
Definition child (p : path) (name : string) : path := (p ++ [name])%list.

(** [p.parent]; the parent of the root is the root. *)
Definition parent (p : path) : path := removelast p.

(** [str(p)] with the POSIX separator. *)
Definition str (p : path) : string :=
  match p with
  | [] => "/"
  | _ => String.concat EmptyString (map (fun c => "/" +:+ c) p)
  end.

(** [p.resolve()]: the identity on resolved paths. *)
Definition resolve (p : path) : path := p.

End Path.

Notation "p // c" := (Path.child p c) (at level 40, left associativity).

(** ** The file system *)

Inductive node : Type :=
| File (content : string)
| Dir (entries : list (string * node)).

Module Fs.

Fixpoint entry_get (c : string) (es : list (string * node)) : option node :=
  match es with
  | [] => None
  | (k, n) :: r => if String.eqb k c then Some n else entry_get c r
  end.

Fixpoint entry_set (c : string) (n : node) (es : list (string * node))
  : list (string * node) :=
  match es with
  | [] => [(c, n)]
  | (k, m) :: r =>
      if String.eqb k c then (k, n) :: r else (k, m) :: entry_set c n r
  end.

Fixpoint entry_del (c : string) (es : list (string * node))
  : list (string * node) :=
  match es with
  | [] => []
  | (k, m) :: r =>
      if String.eqb k c then entry_del c r else (k, m) :: entry_del c r
  end.

(** What is at path [p] below [t], if anything. *)
Fixpoint lookup (p : path) (t : node) : option node :=
  match p with
  | [] => Some t
  | c :: p' =>
      match t with
      | File _ => None
      | Dir es =>
          match entry_get c es with
          | Some t' => lookup p' t'
          | None => None
          end
      end
  end.

(** [p.exists()] *)
Definition exists_ (p : path) (t : node) : bool :=
  match lookup p t with Some _ => true | None => false end.

Definition is_dir (p : path) (t : node) : bool :=
  match lookup p t with Some (Dir _) => true | _ => false end.

(** Nothing at [p] but possibly a directory. *)
Definition dir_or_absent (p : path) (t : node) : bool :=
match lookup p t with Some (File _) => false | _ => true end.

(** Unlink the subtree at [p]. *)
Fixpoint remove (p : path) (t : node) : node :=
  match p with
  | [] => t
  | c :: p' =>
      match t with
      | File _ => t
      | Dir es =>
          match p' with
          | [] => Dir (entry_del c es)
          | _ :: _ =>
              match entry_get c es with
              | Some t' => Dir (entry_set c (remove p' t') es)
              | None => t
              end
          end
      end
  end.

(** Put [n] at [p], creating the missing directories on the way
    ([os.makedirs]); [None] when a proper prefix of [p] is a file. *)
Fixpoint place (p : path) (n : node) (t : node) : option node :=
  match p with
  | [] => Some n
  | c :: p' =>
      match t with
      | File _ => None
      | Dir es =>
          match place p' n (default (Dir []) (entry_get c es)) with
          | Some t' => Some (Dir (entry_set c t' es))
          | None => None
          end
      end
  end.

(** The names [shutil.ignore_patterns(".git", "__pycache__", "*.pyc",
    ".venv", "dist", "build", "outputs")] rejects ([fnmatch] on a POSIX
    host, where it is case sensitive). *)
Definition ignored (name : string) : bool :=
  (String.eqb name ".git" || String.eqb name "__pycache__"
   || PyStr.endswith name ".pyc" || String.eqb name ".venv"
   || String.eqb name "dist" || String.eqb name "build"
   || String.eqb name "outputs")%bool.

(** The tree [shutil.copytree] writes for a source tree: every entry whose
    name is ignored is skipped, at every depth. *)
Fixpoint prune (t : node) : node :=
  match t with
  | File c => File c
  | Dir es =>
      Dir ((fix go (l : list (string * node)) : list (string * node) :=
              match l with
              | [] => []
              | (k, n) :: r =>
                  if ignored k then go r else (k, prune n) :: go r
              end) es)
  end.

End Fs.

(** ** Exceptions, events and the program state *)

Inductive exn : Type :=
| FileNotFoundError (msg : string)
| RuntimeError (msg : string)
| ValueError
| NotADirectoryError (p : path)
| FileExistsError (p : path)
| CalledProcessError (cmd : list string)
| ImportError (msg : string)
| ModuleNotFoundError (msg : string)
| OtherError (msg : string).

(** What the script shows or starts, in the order it happens. *)
Inductive event : Type :=
| Print (line : string)
| Spawn (cmd : list string) (cwd : option path)
        (env : option (gmap string string))
| Probe (cmd : list string).

(** The [argparse.Namespace] that [parse_args] returns. *)
Record Namespace : Type := {
  source_path : option path;
  ref : string;
  platform : string;
  clean : bool;
  python : string
}.

(** [args] is one mutable object shared by [main] and the functions it is
    passed to: it lives in the state, next to the file system and the
    output trace. *)
Record State : Type := {
  args : Namespace;
  fs : node;
  out : list event
}.

Inductive outcome (A : Type) : Type :=
| Return (a : A)
| Raise (e : exn).
Arguments Return {A} a.
Arguments Raise {A} e.

Definition M (A : Type) : Type := State -> outcome A * State.

#[global] Instance M_ret : MRet M := fun A a s => (Return a, s).

#[global] Instance M_bind : MBind M := fun A B f m s =>
  match m s with
  | (Return a, s') => f a s'
  | (Raise e, s') => (Raise e, s')
  end.

Definition raise {A} (e : exn) : M A := fun s => (Raise e, s).

Definition get_args : M Namespace := fun s => (Return (args s), s).

Definition get_fs : M node := fun s => (Return (fs s), s).

Definition put_fs (t : node) : M unit := fun s =>
  (Return tt, {| args := args s; fs := t; out := out s |}).

Definition emit (e : event) : M unit := fun s =>
  (Return tt, {| args := args s; fs := fs s; out := (out s ++ [e])%list |}).

(** [args.source_path = p] *)
Definition set_source_path (p : option path) : M unit := fun s =>
  (Return tt,
   {| args := {| source_path := p; ref := ref (args s);
                 platform := platform (args s); clean := clean (args s);
                 python := python (args s) |};
      fs := fs s; out := out s |}).

Definition print (line : string) : M unit := emit (Print line).

(** [p.exists()] *)
Definition path_exists (p : path) : M bool :=
  t ← get_fs; mret (Fs.exists_ p t).

(** [shutil.rmtree(p)] *)
Definition rmtree (p : path) : M unit :=
  t ← get_fs;
  match Fs.lookup p t with
  | None => raise (FileNotFoundError (Path.str p))
  | Some (File _) => raise (NotADirectoryError p)
  | Some (Dir _) => put_fs (Fs.remove p t)
  end.

(** [shutil.copytree(src, dst, ignore=..., dirs_exist_ok=False)].  The
    source is listed first, then the destination is created, which fails if
    it exists.  The copy is the source as it was when the call started:
    this is what Python does whenever [dst] does not lie inside [src]. *)
Definition copytree (src dst : path) : M unit :=
  t ← get_fs;
  match Fs.lookup src t with
  | None => raise (FileNotFoundError (Path.str src))
  | Some (File _) => raise (NotADirectoryError src)
  | Some (Dir es) =>
      match Fs.lookup dst t with
      | Some _ => raise (FileExistsError dst)
      | None =>
          match Fs.place dst (Fs.prune (Dir es)) t with
          | Some t' => put_fs t'
          | None => raise (NotADirectoryError dst)
          end
      end
  end.

(** [p.mkdir(parents=True, exist_ok=True)] *)
Definition mkdir_p (p : path) : M unit :=
  t ← get_fs;
  match Fs.lookup p t with
  | Some (Dir _) => mret tt
  | Some (File _) => raise (FileExistsError p)
  | None =>
      match Fs.place p (Dir []) t with
      | Some t' => put_fs t'
      | None => raise (NotADirectoryError p)
      end
  end.

(** The line [run] prints before it starts [cmd]. *)
Definition run_line (cmd : list string) : event :=
  Print ("→ " +:+ PyStr.join " " cmd).

(** ** [build.py] *)

Section Build.

(** [ROOT = Path(__file__).resolve().parent]: the directory the script
    lives in. *)
Variable ROOT : path.

(** [platform.system()] on the build host. *)
Variable host_system : string.

(** [os.environ] of the build process. *)
Variable environ : gmap string string.

(** [subprocess.run(cmd, cwd=cwd, check=True, env=env)]: what the child
    process leaves on the file system, or the exception that [check=True]
    or a missing executable raises. *)
Variable subprocess_run :
  list string -> option path -> option (gmap string string) -> node ->
  exn + node.

(** [subprocess.check_output(cmd, text=True)]: the child's standard
    output, or the exception raised. *)
Variable check_output : list string -> node -> exn + string.

Definition REPO_URL : string := "https://github.com/anveshane/kshana.git".
Definition BACKEND_SRC_DIR : path := ROOT // "kshana".
Definition DIST_DIR : path := ROOT // "dist".
Definition BUILD_DIR : path := ROOT // "build-artifacts".
Definition SPEC_PATH : path := ROOT // "kshana.spec".
Definition ENTRY_PATH : path := ROOT // "entry.py".
Definition REQUIREMENTS_PATH : path := ROOT // "requirements.txt".
Definition VENV_PATH : path := ROOT // ".venv".

Definition spawn (cmd : list string) (cwd : option path)
    (env : option (gmap string string)) : M unit :=
  emit (Spawn cmd cwd env);;
  t ← get_fs;
  match subprocess_run cmd cwd env t with
  | inl e => raise e
  | inr t' => put_fs t'
  end.

(** [run(cmd, cwd, env)] *)
Definition run (cmd : list string) (cwd : option path)
    (env : option (gmap string string)) : M unit :=
  print ("→ " +:+ PyStr.join " " cmd);;
  spawn cmd cwd env.

Definition version_probe (python_cmd : string) : list string :=
  [python_cmd; "-c";
   "import sys; print('.'.join(map(str, sys.version_info[:3])))"].

Definition version_message (python_cmd version_str : string) : string :=
  "Python 3.10+ is required. Interpreter '" +:+ python_cmd +:+ "' reports "
  +:+ version_str +:+ ". "
  +:+ "Use --python to provide a newer runtime (e.g., pyenv, uv, or Python.org builds).".

(** [(a, b) < (c, d)] on tuples of integers. *)
Definition pair_ltb (x y : Z * Z) : bool :=
  ((x.1 <? y.1) || ((x.1 =? y.1) && (x.2 <? y.2)))%bool.

(** [ensure_python_version(python_cmd)] *)
Definition ensure_python_version (python_cmd : string) : M unit :=
  emit (Probe (version_probe python_cmd));;
  t ← get_fs;
  match check_output (version_probe python_cmd) t with
  | inl e => raise e
  | inr text =>
      let version_str := PyStr.strip text in
      match PyStr.int <$> PyStr.split "." version_str with
      | [Some major; Some minor; Some patch] =>
          if pair_ltb (major, minor) (3, 10)
          then raise (RuntimeError (version_message python_cmd version_str))
          else mret tt
      | _ => raise ValueError
      end
  end.

Definition local_candidate : path :=
  Path.parent (Path.parent ROOT) // "kshana".

Definition clone_cmd : list string :=
  ["git"; "clone"; REPO_URL; Path.str BACKEND_SRC_DIR].

Definition checkout_cmd (r : string) : list string := ["git"; "checkout"; r].

Definition skip_notice : string :=
  "✓ Existing backend checkout detected. Delete it manually to re-clone.".

(** [args.ref and args.ref != "main"] *)
Definition wants_checkout (r : string) : bool :=
  negb (String.eqb r EmptyString) && negb (String.eqb r "main").

Definition missing_source (source : path) : exn :=
  FileNotFoundError ("Provided source path does not exist: " +:+ Path.str source).

Definition copied_notice (source : path) : string :=
  "✓ Copied backend from " +:+ Path.str source.

(** The branch [if args.source_path:] of [ensure_backend_sources]. *)
Definition copy_sources (sp : path) : M unit :=
  let source := Path.resolve sp in
  found ← path_exists source;
  if negb found then raise (missing_source source)
  else
    staged ← path_exists BACKEND_SRC_DIR;
    (if staged : bool then rmtree BACKEND_SRC_DIR else mret tt);;
    copytree source BACKEND_SRC_DIR;;
    print (copied_notice source).

(** What [ensure_backend_sources] does when no source path is set. *)
Definition clone_sources (a : Namespace) : M unit :=
  staged ← path_exists BACKEND_SRC_DIR;
  if staged : bool then print skip_notice
  else
    run clone_cmd None None;;
    if wants_checkout (ref a)
    then run (checkout_cmd (ref a)) (Some BACKEND_SRC_DIR) None
    else mret tt.

(** [ensure_backend_sources(args)].  A [Path] is always true, so
    [if args.source_path:] tests for [None] only. *)
Definition ensure_backend_sources : M unit :=
  a ← get_args;
  match source_path a with
  | None =>
      found ← path_exists local_candidate;
      if found : bool then set_source_path (Some local_candidate) else mret tt
  | Some _ => mret tt
  end;;
  a ← get_args;
  match source_path a with
  | Some sp => copy_sources sp
  | None => clone_sources a
  end.

Definition venv_cmd (python_cmd : string) : list string :=
  [python_cmd; "-m"; "venv"; Path.str VENV_PATH].

Definition python_bin_path : path :=
  if String.eqb host_system "Windows"
  then VENV_PATH // "Scripts" // "python.exe"
  else VENV_PATH // "bin" // "python3".

(** [ensure_venv(python_cmd)] *)
Definition ensure_venv (python_cmd : string) : M path :=
  ensure_python_version python_cmd;;
  present ← path_exists VENV_PATH;
  (if present : bool then mret tt else run (venv_cmd python_cmd) None None);;
  let python_bin := python_bin_path in
  run [Path.str python_bin; "-m"; "pip"; "install"; "--upgrade"; "pip";
       "wheel"; "setuptools"] None None;;
  run [Path.str python_bin; "-m"; "pip"; "install"; "-r";
       Path.str REQUIREMENTS_PATH] None None;;
  mret python_bin.

(** [clean_previous_outputs()] *)
Definition clean_previous_outputs : M unit :=
  d ← path_exists DIST_DIR;
  (if d : bool then rmtree DIST_DIR else mret tt);;
  b ← path_exists BUILD_DIR;
  if b : bool then rmtree BUILD_DIR else mret tt.

(** [compute_output_name(args)] *)
Definition compute_output_name (a : Namespace) : string :=
  if negb (String.eqb (platform a) "auto") then platform a
  else
    let system := PyStr.lower host_system in
    if PyStr.startswith system "darwin" then "mac"
    else if PyStr.startswith system "windows" then "win"
    else "linux".

Definition bundler_cmd (python_bin : path) (output_suffix : string)
  : list string :=
  [Path.str python_bin; "-m"; "PyInstaller"; "--noconfirm"; "--clean";
   "--distpath"; Path.str (DIST_DIR // ("kshana-backend-" +:+ output_suffix));
   "--workpath"; Path.str BUILD_DIR; Path.str SPEC_PATH].

Definition bundler_env : gmap string string :=
  <["PYTHONPATH" := Path.str BACKEND_SRC_DIR]> environ.

(** [build_bundle(python_bin, output_suffix)] *)
Definition build_bundle (python_bin : path) (output_suffix : string)
  : M unit :=
  mkdir_p DIST_DIR;;
  mkdir_p BUILD_DIR;;
  run (bundler_cmd python_bin output_suffix) (Some ROOT) (Some bundler_env).

Definition success_notice : string := "✅ Backend bundle created successfully.".

(** The three stages of [main], after the optional clean. *)
Definition pipeline : M unit :=
  ensure_backend_sources;;
  a ← get_args;
  python_bin ← ensure_venv (python a);
  a ← get_args;
  let output_suffix := compute_output_name a in
  build_bundle python_bin output_suffix;;
  print success_notice.

(** [main()], from the point where [args = parse_args()] is bound. *)
Definition main : M unit :=
  a ← get_args;
  (if clean a then clean_previous_outputs else mret tt);;
  pipeline.

(** One invocation: [parsed] is what [parse_args] returned, [t] the file
    system it starts on. *)
Definition invoke (parsed : Namespace) (t : node) : outcome unit * State :=
  main {| args := parsed; fs := t; out := [] |}.

(** The state after [args.source_path = local_candidate]. *)
Definition adopted (s : State) : State :=
  {| args := {| source_path := Some local_candidate; ref := ref (args s);
                platform := platform (args s); clean := clean (args s);
                python := python (args s) |};
     fs := fs s; out := out s |}.

End Build.

(** ** [entry.py] and the runtime hook *)

Module Entry.

(** A Python object, known by its identity. *)
Definition pyobj := string.

(** The state of the bundled process: the attributes of the module
    [google.adk.tools], the log of the assignments made to them,
    [sys.path] and [os.environ]. *)
Record Proc : Type := {
  tools : gmap string pyobj;
  assigned : list (string * pyobj);
  sys_path : list string;
  os_environ : gmap string string
}.

Definition W (A : Type) : Type := Proc -> outcome A * Proc.

#[global] Instance W_ret : MRet W := fun A a s => (Return a, s).

#[global] Instance W_bind : MBind W := fun A B f m s =>
  match m s with
  | (Return a, s') => f a s'
  | (Raise e, s') => (Raise e, s')
  end.

Definition throw {A} (e : exn) : W A := fun s => (Raise e, s).

(** [isinstance(e, ImportError)]: [ModuleNotFoundError] is a subclass. *)
Definition is_ImportError (e : exn) : bool :=
  match e with
  | ImportError _ | ModuleNotFoundError _ => true
  | _ => false
  end.

Definition is_ModuleNotFoundError (e : exn) : bool :=
  match e with
  | ModuleNotFoundError _ => true
  | _ => false
  end.

(** [try: body except cls: pass] *)
Definition try_pass (handles : exn -> bool) (body : W unit) : W unit :=
  fun s =>
    match body s with
    | (Raise e, s') => if handles e then (Return tt, s') else (Raise e, s')
    | r => r
    end.

(** [hasattr(google.adk.tools, name)] *)
Definition hasattr (name : string) : W bool := fun s =>
  (Return (bool_decide (is_Some (tools s !! name))), s).

(** [google.adk.tools.<name> = v] *)
Definition setattr (name : string) (v : pyobj) : W unit := fun s =>
  (Return tt,
   {| tools := <[name := v]> (tools s);
      assigned := (assigned s ++ [(name, v)])%list;
      sys_path := sys_path s;
      os_environ := os_environ s |}).

(** The state after [google.adk.tools.AgentTool = cls]. *)
Definition patched (cls : pyobj) (s : Proc) : Proc :=
  {| tools := <["AgentTool" := cls]> (tools s);
     assigned := (assigned s ++ [("AgentTool", cls)])%list;
     sys_path := sys_path s;
     os_environ := os_environ s |}.

(** [d.setdefault(key, value)] on a dictionary of strings. *)
Definition setdefault (key value : string) (d : gmap string string)
  : gmap string string :=
  match d !! key with
  | Some _ => d
  | None => <[key := value]> d
  end.

(** [os.environ.setdefault(key, value)] *)
Definition environ_setdefault (key value : string) : W unit := fun s =>
  (Return tt,
   {| tools := tools s; assigned := assigned s; sys_path := sys_path s;
      os_environ := setdefault key value (os_environ s) |}).

Definition put_environ (e : gmap string string) : W unit := fun s =>
  (Return tt,
   {| tools := tools s; assigned := assigned s; sys_path := sys_path s;
      os_environ := e |}).

Definition get_proc : W Proc := fun s => (Return s, s).

(** An import either binds what it was asked for or raises. *)
Definition import (r : exn + pyobj) : W pyobj :=
  match r with
  | inl e => throw e
  | inr v => mret v
  end.

Section Wrapper.

(** [from google.adk.tools.agent_tool import AgentTool] *)
Variable import_AgentTool : exn + pyobj.

(** [import google.adk.tools] *)
Variable import_tools : exn + pyobj.

(** [_patch_google_adk_tools()] of [entry.py]. *)
Definition _patch_google_adk_tools : W unit :=
  try_pass is_ImportError
    (AgentTool ← import import_AgentTool;
     import import_tools;;
     present ← hasattr "AgentTool";
     if negb present then setattr "AgentTool" AgentTool else mret tt).

(** The body of [pyi_rth_google_adk_tools.py]. *)
Definition runtime_hook : W unit :=
  try_pass is_ImportError
    (AgentTool ← import import_AgentTool;
     tools_module ← import import_tools;
     present ← hasattr "AgentTool";
     if negb present then setattr "AgentTool" AgentTool else mret tt).

(** The directory [entry.py] lives in, and the disk it runs on. *)
Variable root_dir : path.
Variable disk : node.

(** [from dotenv import load_dotenv] and the function it binds. *)
Variable import_dotenv : exn + pyobj.
Variable load_dotenv :
  path -> node -> gmap string string -> exn + gmap string string.

(** A [load_dotenv] that does not override what the environment has
    (its default, [override=False]). *)
Definition keeps_existing : Prop :=
  forall p e e', load_dotenv p disk e = inr e' ->
    forall k v, e !! k = Some v -> e' !! k = Some v.

(** [from app.cli import start] and [start()]. *)
Variable import_start : exn + pyobj.
Variable start : Proc -> outcome unit * Proc.

(** [_ensure_project_on_path()] *)
Definition _ensure_project_on_path : W path := fun s =>
  let backend_src := root_dir // "kshana" in
  (Return backend_src,
   if (Fs.exists_ backend_src disk
       && negb (bool_decide (Path.str backend_src ∈ sys_path s)))%bool
   then {| tools := tools s; assigned := assigned s;
           sys_path := Path.str backend_src :: sys_path s;
           os_environ := os_environ s |}
   else s).

(** [_load_dotenv(project_dir)] *)
Definition _load_dotenv (project_dir : path) : W unit :=
  let env_path := project_dir // ".env" in
  if Fs.exists_ env_path disk
  then
    try_pass is_ModuleNotFoundError
      (import import_dotenv;;
       s ← get_proc;
       match load_dotenv env_path disk (os_environ s) with
       | inl e => throw e
       | inr e' => put_environ e'
       end)
  else mret tt.

(** [main()] up to the two defaults. *)
Definition prepare : W unit :=
  backend_src ← _ensure_project_on_path;
  _load_dotenv backend_src.

Definition default_hosts : W unit :=
  environ_setdefault "KSHANA_HOST" "127.0.0.1";;
  environ_setdefault "KSHANA_PUBLIC_HOST" "127.0.0.1".

(** [main()] *)
Definition main : W unit :=
  prepare;;
  default_hosts;;
  import import_start;;
  start.

End Wrapper.

End Entry.

(** ** A sample host

    A developer machine on which the repository is checked out at
    [/home/dev/kshana-desktop], used to run the model on concrete inputs. *)

Module Sample.

Definition ROOT : path := ["home"; "dev"; "kshana-desktop"; "backend-build"].

Definition backend_tree : node :=
  Dir [("app", Dir [("cli.py", File "def start(): ...");
                    ("cli.pyc", File "cached")]);
       (".git", Dir [("HEAD", File "ref: refs/heads/main")]);
       ("pyproject.toml", File "[project]")].

Definition script_dir (extra : list (string * node)) : node :=
  Dir ([("build.py", File "#!/usr/bin/env python3");
        ("kshana.spec", File "# spec");
        ("requirements.txt", File "pyinstaller")] ++ extra).

(** The machine with [siblings] next to the repository and [extra] next
    to the build script. *)
Definition disk (siblings extra : list (string * node)) : node :=
  Dir [("home",
        Dir [("dev",
              Dir (("kshana-desktop",
                    Dir [("backend-build", script_dir extra)])
                   :: siblings))])].

(** Nothing staged, no sibling checkout. *)
Definition fresh : node := disk [] [].

(** A sibling checkout [/home/dev/kshana], nothing staged. *)
Definition with_sibling : node := disk [("kshana", backend_tree)] [].

(** A sibling checkout and an older staged tree. *)
Definition with_sibling_staged : node :=
  disk [("kshana", backend_tree)] [("kshana", Dir [("old.py", File "old")])].

(** A staged tree, no sibling checkout. *)
Definition staged_only : node :=
  disk [] [("kshana", Dir [("old.py", File "old")])].

(** Outputs of a previous build. *)
Definition built : node :=
  disk [] [("dist", Dir [("kshana-backend-linux", Dir [])]);
           ("build-artifacts", Dir [("x.toc", File "toc")])].

(** [dist] is a regular file. *)
Definition dist_is_file : node := disk [] [("dist", File "stale")].

Definition environ : gmap string string := {["PATH" := "/usr/bin"]}.

(** Child processes that all succeed; [git clone] leaves a checkout at
    its target, the others leave the disk as it is. *)
Definition subprocess_run (cmd : list string) (cwd : option path)
    (env : option (gmap string string)) (t : node) : exn + node :=
  match cmd with
  | ["git"; "clone"; _; _] =>
      match Fs.place (ROOT // "kshana") backend_tree t with
      | Some t' => inr t'
      | None => inl (CalledProcessError cmd)
      end
  | _ => inr t
  end.

(** [python3.9] is a 3.9.18, every other interpreter a 3.11.4. *)
Definition check_output (cmd : list string) (t : node) : exn + string :=
  match cmd with
  | "python3.9" :: _ => inr "3.9.18
"
  | _ => inr "3.11.4
"
  end.

Definition parsed (sp : option path) (r : string) (c : bool) (py : string)
  : Namespace :=
  {| source_path := sp; ref := r; platform := "auto"; clean := c;
     python := py |}.

Definition for_platform (pl : string) : Namespace :=
  {| source_path := None; ref := "main"; platform := pl; clean := false;
     python := "python3" |}.

Definition start_at (a : Namespace) (t : node) : State :=
  {| args := a; fs := t; out := [] |}.

End Sample.

(** ** A sample process *)

Module SampleProc.

Definition proc (ns : gmap string Entry.pyobj) (env : gmap string string)
  : Entry.Proc :=
  {| Entry.tools := ns; Entry.assigned := []; Entry.sys_path := ["/app"];
     Entry.os_environ := env |}.

(** [google.adk.tools] as the package ships it: no [AgentTool]. *)
Definition unpatched : gmap string Entry.pyobj :=
  {["FunctionTool" := "google.adk.tools.function_tool.FunctionTool"]}.

Definition AgentTool : Entry.pyobj := "google.adk.tools.agent_tool.AgentTool".

(** The operator chose the bind address, not the public one. *)
Definition operator_env : gmap string string :=
  {["KSHANA_HOST" := "0.0.0.0"]}.

(** A bundle with a [.env] file next to the backend sources. *)
Definition disk : node :=
  Dir [("opt", Dir [("kshana", Dir [(".env", File "KSHANA_HOST=10.0.0.1")])])].

(** [load_dotenv] with its default [override=False]: the variables of the
    file are added where the environment has none. *)
Definition load_dotenv (p : path) (d : node) (e : gmap string string)
  : exn + gmap string string :=
  inr (e ∪ {["KSHANA_HOST" := "10.0.0.1"]}).

Definition start (s : Entry.Proc) : outcome unit * Entry.Proc := (Return tt, s).

End SampleProc.

(** ** Frame conditions *)

(** [m] relates every state to the state it leaves, also when it raises. *)
Definition stable {A} (R : relation State) (m : M A) : Prop :=
  forall s, R s (m s).2.

(** A relation between states that no file system update breaks, nor the
    emission of an event that [ok] accepts. *)
Class Frame (R : relation State) (ok : event -> Prop) : Prop := {
  frame_preorder :: PreOrder R;
  frame_fs : forall s t, R s {| args := args s; fs := t; out := out s |};
  frame_emit : forall s e,
    ok e -> R s {| args := args s; fs := fs s; out := out s ++ [e] |}
}.

(** A [git clone ...] command line. *)
Definition is_clone_cmd (cmd : list string) : bool :=
  match cmd with
  | a :: b :: _ => String.eqb a "git" && String.eqb b "clone"
  | _ => false
  end.

Definition is_clone (e : event) : bool :=
  match e with
  | Spawn cmd _ _ => is_clone_cmd cmd
  | _ => false
  end.

(** How many clone operations a trace holds. *)
Definition clones (tr : list event) : nat := length (List.filter is_clone tr).

(** The commands started, in order. *)
Definition spawned (tr : list event) : list (list string) :=
  omap (fun e => match e with Spawn cmd _ _ => Some cmd | _ => None end) tr.

Definition args_kept : relation State := fun s s' => args s' = args s.

Definition clones_kept : relation State := fun s s' =>
  clones (out s') = clones (out s).

Definition silent : relation State := fun s s' =>
  out s' = out s /\ args s' = args s.

(** The state [main] starts from. *)
Definition start_state (parsed : Namespace) (t : node) : State :=
  {| args := parsed; fs := t; out := [] |}.

(** ** More observations on a run *)

(** A [... -m PyInstaller ...] command line. *)
Definition is_bundler_cmd (cmd : list string) : bool :=
  match cmd with
  | _ :: b :: c :: _ => String.eqb b "-m" && String.eqb c "PyInstaller"
  | _ => false
  end.

Definition is_bundler (e : event) : bool :=
  match e with
  | Spawn cmd _ _ => is_bundler_cmd cmd
  | _ => false
  end.

(** How many times the bundler was started. *)
Definition bundlers (tr : list event) : nat := length (List.filter is_bundler tr).

Definition is_success (e : event) : bool :=
  match e with
  | Print l => String.eqb l success_notice
  | _ => false
  end.

(** How many times the closing notice was printed. *)
Definition successes (tr : list event) : nat :=
  length (List.filter is_success tr).

Definition outcome_kept : relation State := fun s s' =>
  bundlers (out s') = bundlers (out s) /\ successes (out s') = successes (out s).

(** What a run that started with [b0] bundler starts and [n0] closing
    notices in its trace shows when it ends: after a normal return one more
    of each, the notice last; after an error no notice more, and at most
    one bundler start more. *)
Definition run_report (b0 n0 : nat) (r : outcome unit * State) : Prop :=
  match r.1 with
  | Return _ =>
      bundlers (out r.2) = S b0 /\ successes (out r.2) = S n0
      /\ last (out r.2) = Some (Print success_notice)
  | Raise _ =>
      successes (out r.2) = n0 /\ (bundlers (out r.2) <= S b0)%nat
  end.




(** A relative path with a component that [copytree] is told to ignore. *)
Definition has_ignored (q : path) : bool := existsb Fs.ignored q.

(** The values [--platform] accepts. *)
Definition platform_choices : list string := ["auto"; "mac"; "win"; "linux"].

(** * Properties *)

(** ** The file system *)

Module FsFacts.
Import Fs.

Lemma entry_get_set_eq c n es : entry_get c (entry_set c n es) = Some n.
Proof.
  induction es as [|[k m] r IH]; cbn.
  - by rewrite String.eqb_refl.
  - destruct (String.eqb_spec k c) as [->|Hne]; cbn.
    + by rewrite String.eqb_refl.
    + destruct (String.eqb_spec k c); [done | apply IH].
Qed.

Lemma entry_get_set_ne c c' n es :
  c ≠ c' -> entry_get c' (entry_set c n es) = entry_get c' es.
Proof.
  intros Hne. induction es as [|[k m] r IH]; cbn.
  - destruct (String.eqb_spec c c'); [done | done].
  - destruct (String.eqb_spec k c) as [->|Hkc]; cbn.
    + destruct (String.eqb_spec c c'); [done | done].
    + destruct (String.eqb_spec k c'); [done | apply IH].
Qed.

Lemma entry_get_del_eq c es : entry_get c (entry_del c es) = None.
Proof.
  induction es as [|[k m] r IH]; cbn; [done|].
  destruct (String.eqb_spec k c) as [->|Hne]; cbn; [done|].
  destruct (String.eqb_spec k c); [done | apply IH].
Qed.

Lemma entry_get_del_ne c c' es :
  c ≠ c' -> entry_get c' (entry_del c es) = entry_get c' es.
Proof.
  intros Hne. induction es as [|[k m] r IH]; cbn; [done|].
  destruct (String.eqb_spec k c) as [->|Hkc]; cbn.
  - destruct (String.eqb_spec c c'); [done | apply IH].
  - destruct (String.eqb_spec k c'); [done | apply IH].
Qed.

Lemma remove_cons c tl es :
  tl ≠ [] ->
  remove (c :: tl) (Dir es) =
  match entry_get c es with
  | Some t' => Dir (entry_set c (remove tl t') es)
  | None => Dir es
  end.
Proof. by destruct tl. Qed.

(** After [remove p], nothing is left at [p]. *)
Lemma lookup_remove_same p t : p ≠ [] -> lookup p (remove p t) = None.
Proof.
  revert t. induction p as [|c p IH]; intros t Hne; [done|].
  destruct t as [s|es]; [done|].
  destruct (decide (p = [])) as [->|Hp].
  - cbn. by rewrite entry_get_del_eq.
  - rewrite remove_cons by done.
    destruct (entry_get c es) as [t'|] eqn:Hc; cbn [lookup].
    + rewrite entry_get_set_eq. by apply IH.
    + by rewrite Hc.
Qed.

(** [remove] leaves alone every path that leaves the removed one at some
    component. *)
Lemma lookup_remove_diverge r a b p q t :
  a ≠ b ->
  lookup (r ++ a :: p) (remove (r ++ b :: q) t) = lookup (r ++ a :: p) t.
Proof.
  intros Hab. revert t. induction r as [|c r IH]; intros t.
  - destruct t as [s|es]; [done|]. cbn [app].
    destruct (decide (q = [])) as [->|Hq].
    + cbn. by rewrite entry_get_del_ne.
    + rewrite remove_cons by done.
      destruct (entry_get b es) as [t'|] eqn:Hb; [|done].
      cbn [lookup]. by rewrite entry_get_set_ne.
  - destruct t as [s|es]; [done|].
    rewrite <- !app_comm_cons, remove_cons by (by destruct r).
    destruct (entry_get c es) as [t'|] eqn:Hc; [|done].
    cbn [lookup]. rewrite entry_get_set_eq, Hc. apply IH.
Qed.

(** The parent directory of a removed entry loses that entry only. *)
Lemma lookup_remove_parent r c es t :
  lookup r t = Some (Dir es) ->
  lookup r (remove (r ++ [c]) t) = Some (Dir (entry_del c es)).
Proof.
  revert t. induction r as [|k r IH]; intros t Hr.
  - cbn in Hr. by simplify_eq.
  - destruct t as [s|es0]; [done|]. cbn [lookup] in Hr.
    destruct (entry_get k es0) as [t'|] eqn:Hk; [|done].
    rewrite <- app_comm_cons, remove_cons by (by destruct r).
    rewrite Hk. cbn [lookup]. rewrite entry_get_set_eq. by apply IH.
Qed.

Lemma lookup_place_same p n t t' :
  place p n t = Some t' -> lookup p t' = Some n.
Proof.
  revert t t'. induction p as [|c p IH]; intros t t' Hp.
  - cbn in Hp. by simplify_eq.
  - destruct t as [s|es]; [done|]. cbn [place] in Hp.
    destruct (place p n (default (Dir []) (entry_get c es))) as [u|] eqn:Hu;
      [|done].
    simplify_eq. cbn [lookup]. rewrite entry_get_set_eq. by eapply IH.
Qed.

Lemma lookup_place_diverge r a b p q n t t' :
  a ≠ b ->
  place (r ++ b :: q) n t = Some t' ->
  lookup (r ++ a :: p) t' = lookup (r ++ a :: p) t.
Proof.
  intros Hab. revert t t'. induction r as [|c r IH]; intros t t' Hp.
  - destruct t as [s|es]; [done|]. cbn [app place] in Hp.
    destruct (place q n (default (Dir []) (entry_get b es))) as [u|]; [|done].
    simplify_eq. cbn [app lookup]. by rewrite entry_get_set_ne.
  - destruct t as [s|es]; [done|]. cbn [app place] in Hp.
    destruct (place (r ++ b :: q) n (default (Dir []) (entry_get c es)))
      as [u|] eqn:Hu; [|done].
    simplify_eq. cbn [app lookup]. rewrite entry_get_set_eq.
    destruct (entry_get c es) as [t0|] eqn:Hc; cbn [from_option id] in Hu.
    + by eapply IH.
    + erewrite IH by done. by destruct r.
Qed.

(** Below a directory, a new entry can always be placed, and the
    directory gains that entry only. *)
Lemma place_child r c n es t :
  lookup r t = Some (Dir es) ->
  exists t', place (r ++ [c]) n t = Some t'
             /\ lookup r t' = Some (Dir (entry_set c n es)).
Proof.
  revert t. induction r as [|k r IH]; intros t Hr.
  - cbn in Hr. simplify_eq. cbn. eauto.
  - destruct t as [s|es0]; [done|]. cbn [lookup] in Hr.
    destruct (entry_get k es0) as [t0|] eqn:Hk; [|done].
    destruct (IH _ Hr) as (u & Hu & Hl).
    rewrite <- app_comm_cons. cbn [place]. rewrite Hk. cbn [from_option id].
    rewrite Hu. eexists. split; [done|].
    cbn [lookup]. by rewrite entry_get_set_eq.
Qed.

(** [remove] creates nothing. *)
Lemma lookup_remove_none p q t :
  lookup q t = None -> lookup q (remove p t) = None.
Proof.
  revert q t. induction p as [|c p IH]; intros q t Hq; [done|].
  destruct t as [s|es]; [done|].
  destruct q as [|k q]; [done|]. cbn [lookup] in Hq.
  destruct (decide (p = [])) as [->|Hp].
  - cbn [remove lookup]. destruct (decide (c = k)) as [->|Hne].
    + by rewrite entry_get_del_eq.
    + by rewrite entry_get_del_ne.
  - rewrite remove_cons by done.
    destruct (entry_get c es) as [t'|] eqn:Hc; cbn [lookup]; [|done].
    destruct (decide (c = k)) as [->|Hne].
    + rewrite entry_get_set_eq. rewrite Hc in Hq. by apply IH.
    + by rewrite entry_get_set_ne.
Qed.

Lemma is_dir_lookup p t :
  is_dir p t = true -> exists es, lookup p t = Some (Dir es).
Proof.
  unfold is_dir. destruct (lookup p t) as [[c|es]|]; [done | eauto | done].
Qed.

(** [remove p] neither deletes nor creates anything at a path that does
    not start with [p]. *)
Lemma exists_remove_outside p q t :
  ¬ p `prefix_of` q -> exists_ q (remove p t) = exists_ q t.
Proof.
  unfold exists_. revert q t. induction p as [|c p IH]; intros q t Hpre; [done|].
  destruct t as [s|es]; [done|].
  destruct q as [|k q]; [done|].
  destruct (decide (p = [])) as [->|Hp].
  - cbn [remove lookup]. rewrite entry_get_del_ne; [done|].
    intros ->. apply Hpre. apply prefix_cons, prefix_nil.
  - rewrite remove_cons by done.
    destruct (entry_get c es) as [t'|] eqn:Hc; [|done].
    cbn [lookup]. destruct (decide (c = k)) as [->|Hne].
    + rewrite entry_get_set_eq, Hc. apply IH.
      intros H. apply Hpre. by apply prefix_cons.
    + by rewrite entry_get_set_ne.
Qed.

(** The copy holds no entry with an ignored name. *)
Lemma prune_drops_ignored k es :
  ignored k = true -> lookup [k] (prune (Dir es)) = None.
Proof.
  intros Hk. cbn [prune lookup].
  induction es as [|[c n] r IH]; [done|].
  destruct (ignored c) eqn:Hc; [exact IH|].
  cbn [entry_get]. destruct (String.eqb_spec c k) as [->|Hne]; [congruence|].
  exact IH.
Qed.

End FsFacts.

(** ** Platform suffix *)

Lemma startswith_darwin_not_windows s :
  PyStr.startswith s "darwin" = true -> PyStr.startswith s "windows" = false.
Proof.
  unfold PyStr.startswith. destruct s as [|c r]; [done|]. cbn [String.prefix].
  destruct (ascii_dec "d" c) as [<-|]; [|done].
  intros _. by destruct (ascii_dec "w" "d").
Qed.

(** C7. The platform suffix is the [--platform] argument itself unless it is
    ["auto"]; for ["auto"] it is ["mac"] when the lower-cased host system
    name starts with ["darwin"], ["win"] when it starts with ["windows"],
    and ["linux"] for every other host. *)
Theorem compute_output_name_buckets (host : string) (a : Namespace) :
  (platform a ≠ "auto" -> compute_output_name host a = platform a)
  /\ (platform a = "auto" ->
      PyStr.startswith (PyStr.lower host) "darwin" = true ->
      compute_output_name host a = "mac")
  /\ (platform a = "auto" ->
      PyStr.startswith (PyStr.lower host) "windows" = true ->
      compute_output_name host a = "win")
  /\ (platform a = "auto" ->
      PyStr.startswith (PyStr.lower host) "darwin" = false ->
      PyStr.startswith (PyStr.lower host) "windows" = false ->
      compute_output_name host a = "linux").
Proof.
  unfold compute_output_name. split; [|split; [|split]].
  - intros Hp. by destruct (String.eqb_spec (platform a) "auto").
  - intros -> Hd. cbn. by rewrite Hd.
  - intros -> Hw. cbn. rewrite Hw.
    destruct (PyStr.startswith (PyStr.lower host) "darwin") eqn:Hd; [|done].
    apply startswith_darwin_not_windows in Hd. congruence.
  - intros -> Hd Hw. cbn. by rewrite Hd, Hw.
Qed.

Lemma compute_output_name_buckets_witness :
  compute_output_name "Darwin" (Sample.for_platform "auto") = "mac"
  /\ compute_output_name "Windows" (Sample.for_platform "auto") = "win"
  /\ compute_output_name "FreeBSD" (Sample.for_platform "auto") = "linux"
  /\ compute_output_name "Darwin" (Sample.for_platform "win") = "win".
Proof.
  split; [|split; [|split]].
  - apply (proj1 (proj2 (compute_output_name_buckets "Darwin" _)));
      reflexivity.
  - apply (proj1 (proj2 (proj2 (compute_output_name_buckets "Windows" _))));
      reflexivity.
  - apply (proj2 (proj2 (proj2 (compute_output_name_buckets "FreeBSD" _))));
      reflexivity.
  - apply (proj1 (compute_output_name_buckets "Darwin"
                    (Sample.for_platform "win"))).
    cbn. intros H. discriminate H.
Defined.

(** ** The compatibility patch *)

Section PatchFacts.
Import Entry.

Lemma patch_run cls mdl s :
  _patch_google_adk_tools (inr cls) (inr mdl) s =
  (Return tt, if tools s !! "AgentTool" is Some _ then s else patched cls s).
Proof.
  unfold _patch_google_adk_tools, try_pass, hasattr, setattr, import.
  unfold mbind, mret, W_bind, W_ret. cbn.
  by destruct (tools s !! "AgentTool").
Qed.

Lemma hook_run cls mdl s :
  runtime_hook (inr cls) (inr mdl) s =
  (Return tt, if tools s !! "AgentTool" is Some _ then s else patched cls s).
Proof.
  unfold runtime_hook, try_pass, hasattr, setattr, import.
  unfold mbind, mret, W_bind, W_ret. cbn.
  by destruct (tools s !! "AgentTool").
Qed.

Lemma patched_has cls s : tools (patched cls s) !! "AgentTool" = Some cls.
Proof. apply lookup_insert_eq. Qed.

Lemma patch_present cls mdl s :
  is_Some (tools s !! "AgentTool") ->
  _patch_google_adk_tools (inr cls) (inr mdl) s = (Return tt, s)
  /\ runtime_hook (inr cls) (inr mdl) s = (Return tt, s).
Proof. intros [v Hv]. by rewrite patch_run, hook_run, Hv. Qed.

Lemma patch_leaves_symbol cls mdl s :
  is_Some (tools (_patch_google_adk_tools (inr cls) (inr mdl) s).2
           !! "AgentTool")
  /\ is_Some (tools (runtime_hook (inr cls) (inr mdl) s).2 !! "AgentTool").
Proof.
  rewrite patch_run, hook_run. cbn [snd].
  destruct (tools s !! "AgentTool") eqn:Hs; rewrite ?Hs, ?patched_has; eauto.
Qed.

End PatchFacts.

(** C8. Running the compatibility patch twice in one process never raises
    when the imports succeed; the second run finds the symbol and changes
    nothing, also when the first run was the runtime hook; on a namespace
    that lacks [AgentTool] the two runs together assign it exactly once,
    and on one that has it they assign nothing.  An import that fails with
    [ImportError] (or its subclass [ModuleNotFoundError]) is swallowed and
    the state is left as it was. *)
Theorem patch_twice_assigns_once (s : Entry.Proc) (cls mdl : Entry.pyobj) :
  let patch := Entry._patch_google_adk_tools (inr cls) (inr mdl) in
  let hook := Entry.runtime_hook (inr cls) (inr mdl) in
  (patch s).1 = Return tt
  /\ patch (patch s).2 = (Return tt, (patch s).2)
  /\ patch (hook s).2 = (Return tt, (hook s).2)
  /\ hook (patch s).2 = (Return tt, (patch s).2)
  /\ (Entry.tools s !! "AgentTool" = None ->
      Entry.assigned (patch (patch s).2).2
      = Entry.assigned s ++ [("AgentTool", cls)]
      /\ Entry.tools (patch (patch s).2).2
         = <["AgentTool" := cls]> (Entry.tools s))
  /\ (is_Some (Entry.tools s !! "AgentTool") -> (patch (patch s).2).2 = s)
  /\ (forall msg other,
        Entry._patch_google_adk_tools (inl (ImportError msg)) other s
        = (Return tt, s)
        /\ Entry._patch_google_adk_tools (inl (ModuleNotFoundError msg)) other s
           = (Return tt, s)
        /\ Entry._patch_google_adk_tools (inr cls) (inl (ImportError msg)) s
           = (Return tt, s)).
Proof.
  cbn zeta.
  destruct (patch_leaves_symbol cls mdl s) as [Hp Hh].
  split; [by rewrite patch_run|].
  split; [by apply patch_present|].
  split; [by apply patch_present|].
  split; [by apply patch_present|].
  split.
  { intros Hs. rewrite (proj1 (patch_present cls mdl _ Hp)). cbn [snd].
    by rewrite patch_run, Hs. }
  split.
  { intros Hs. rewrite (proj1 (patch_present cls mdl _ Hp)). cbn [snd].
    by rewrite (proj1 (patch_present cls mdl _ Hs)). }
  intros msg other. done.
Qed.

Lemma patch_twice_assigns_once_witness :
  let s := SampleProc.proc SampleProc.unpatched SampleProc.operator_env in
  let patch :=
    Entry._patch_google_adk_tools (inr SampleProc.AgentTool) (inr "google.adk.tools") in
  Entry.assigned (patch (patch s).2).2 = [("AgentTool", SampleProc.AgentTool)]
  /\ (patch (patch (patch s).2).2).2 = (patch s).2.
Proof.
  cbn zeta.
  pose proof (patch_twice_assigns_once
                (SampleProc.proc SampleProc.unpatched SampleProc.operator_env)
                SampleProc.AgentTool "google.adk.tools") as H.
  cbn zeta in H. destruct H as (_ & _ & _ & _ & Habsent & _).
  assert (Hnone : Entry.tools
                    (SampleProc.proc SampleProc.unpatched SampleProc.operator_env)
                  !! "AgentTool" = None) by reflexivity.
  destruct (Habsent Hnone) as [Hlog _].
  split; [exact Hlog|].
  pose proof (patch_twice_assigns_once
                (Entry._patch_google_adk_tools (inr SampleProc.AgentTool)
                   (inr "google.adk.tools")
                   (SampleProc.proc SampleProc.unpatched SampleProc.operator_env)).2
                SampleProc.AgentTool "google.adk.tools") as H2.
  cbn zeta in H2. destruct H2 as (_ & _ & _ & _ & _ & Hpresent & _).
  apply Hpresent. vm_compute. eauto.
Defined.

(** ** Networking defaults of the entry wrapper *)

Section EnvironFacts.
Import Entry.

Lemma setdefault_lookup key value d k :
  setdefault key value d !! k =
  if decide (k = key) then Some (default value (d !! key)) else d !! k.
Proof.
  unfold setdefault. destruct (decide (k = key)) as [->|Hne].
  - destruct (d !! key) eqn:Hd; cbn; [done | apply lookup_insert_eq].
  - destruct (d !! key) eqn:Hd; [done|]. by rewrite lookup_insert_ne.
Qed.

Lemma setdefault_keeps key value d k v :
  d !! k = Some v -> setdefault key value d !! k = Some v.
Proof.
  intros Hk. rewrite setdefault_lookup. case_decide; [|done].
  subst. by rewrite Hk.
Qed.

Variable root_dir : path.
Variable disk : node.
Variable import_dotenv : exn + pyobj.
Variable load_dotenv :
  path -> node -> gmap string string -> exn + gmap string string.

Lemma ensure_project_on_path_run s :
  exists s0, _ensure_project_on_path root_dir disk s
             = (Return (root_dir // "kshana"), s0)
             /\ os_environ s0 = os_environ s.
Proof.
  unfold _ensure_project_on_path. eexists. split; [done|]. by case_match.
Qed.

Lemma load_dotenv_keeps project_dir s s1 k v :
  keeps_existing disk load_dotenv ->
  _load_dotenv disk import_dotenv load_dotenv project_dir s = (Return tt, s1) ->
  os_environ s !! k = Some v -> os_environ s1 !! k = Some v.
Proof.
  intros Hkeep. unfold _load_dotenv.
  destruct (Fs.exists_ (project_dir // ".env") disk).
  - unfold mbind, mret, W_bind, W_ret, try_pass, get_proc, put_environ,
      import, throw.
    destruct import_dotenv as [e|o]; cbn.
    + destruct (is_ModuleNotFoundError e); intros; by simplify_eq.
    + destruct (load_dotenv _ disk (os_environ s)) as [e|e'] eqn:Hl; cbn.
      * destruct (is_ModuleNotFoundError e); intros; by simplify_eq.
      * intros ? Hk. simplify_eq. cbn. by eapply Hkeep.
  - unfold mret, W_ret. intros ? Hk. by simplify_eq.
Qed.

Lemma prepare_keeps s s1 k v :
  keeps_existing disk load_dotenv ->
  prepare root_dir disk import_dotenv load_dotenv s = (Return tt, s1) ->
  os_environ s !! k = Some v -> os_environ s1 !! k = Some v.
Proof.
  intros Hkeep. unfold prepare.
  destruct (ensure_project_on_path_run s) as (s0 & Hrun & Henv).
  unfold mbind, W_bind. rewrite Hrun. rewrite <- Henv.
  by apply load_dotenv_keeps.
Qed.

End EnvironFacts.

(** C10. When the wrapper starts, it reaches its import of the backend with
    [KSHANA_HOST] and [KSHANA_PUBLIC_HOST] each holding the value the
    process environment had for it, and [127.0.0.1] only where it had none;
    no other variable changes.  With a [.env] loader that does not override
    (the default of [load_dotenv]), every variable the operator had set
    keeps its value up to that point. *)
Theorem default_hosts_only_if_unset
    (root_dir : path) (disk : node) (import_dotenv : exn + Entry.pyobj)
    (load_dotenv : path -> node -> gmap string string -> exn + gmap string string)
    (import_start : exn + Entry.pyobj)
    (start : Entry.Proc -> outcome unit * Entry.Proc)
    (s s1 : Entry.Proc) :
  Entry.prepare root_dir disk import_dotenv load_dotenv s = (Return tt, s1) ->
  exists s2,
    Entry.main root_dir disk import_dotenv load_dotenv import_start start s
    = (Entry.import import_start ≫= λ _, start) s2
    /\ Entry.os_environ s2 !! "KSHANA_HOST"
       = Some (default "127.0.0.1" (Entry.os_environ s1 !! "KSHANA_HOST"))
    /\ Entry.os_environ s2 !! "KSHANA_PUBLIC_HOST"
       = Some (default "127.0.0.1" (Entry.os_environ s1 !! "KSHANA_PUBLIC_HOST"))
    /\ (forall k, k ≠ "KSHANA_HOST" -> k ≠ "KSHANA_PUBLIC_HOST" ->
         Entry.os_environ s2 !! k = Entry.os_environ s1 !! k)
    /\ (Entry.keeps_existing disk load_dotenv ->
        forall k v, Entry.os_environ s !! k = Some v ->
                    Entry.os_environ s2 !! k = Some v).
Proof.
  intros Hprep. unfold Entry.main, Entry.default_hosts.
  unfold mbind at 1. unfold Entry.W_bind at 1. rewrite Hprep.
  unfold mbind at 1. unfold Entry.W_bind at 1.
  unfold mbind at 1. unfold Entry.W_bind at 1.
  unfold Entry.environ_setdefault. cbn [Entry.os_environ Entry.tools
    Entry.assigned Entry.sys_path].
  eexists. split; [reflexivity|]. cbn [Entry.os_environ].
  split; [|split; [|split; [|]]].
  - rewrite !setdefault_lookup. by repeat case_decide.
  - rewrite !setdefault_lookup. by repeat case_decide.
  - intros k H1 H2. rewrite !setdefault_lookup. by repeat case_decide.
  - intros Hkeep k v Hk. do 2 apply setdefault_keeps.
    by eapply prepare_keeps.
Qed.

Lemma default_hosts_only_if_unset_witness :
  exists s2,
    Entry.main ["opt"] SampleProc.disk (inr "dotenv.load_dotenv")
      SampleProc.load_dotenv (inr "app.cli.start") SampleProc.start
      (SampleProc.proc SampleProc.unpatched SampleProc.operator_env)
    = (Entry.import (inr "app.cli.start") ≫= λ _, SampleProc.start) s2
    /\ Entry.os_environ s2 !! "KSHANA_HOST" = Some "0.0.0.0"
    /\ Entry.os_environ s2 !! "KSHANA_PUBLIC_HOST" = Some "127.0.0.1".
Proof.
  destruct (default_hosts_only_if_unset ["opt"] SampleProc.disk
              (inr "dotenv.load_dotenv") SampleProc.load_dotenv
              (inr "app.cli.start") SampleProc.start
              (SampleProc.proc SampleProc.unpatched SampleProc.operator_env)
              _ eq_refl) as (s2 & Hmain & Hhost & Hpub & _ & _).
  exists s2. split; [exact Hmain|]. split.
  - rewrite Hhost. vm_compute. reflexivity.
  - rewrite Hpub. vm_compute. reflexivity.
Defined.

(** ** Frame rules *)

Section FrameRules.
Context (R : relation State) (ok : event -> Prop) `{!Frame R ok}.

Lemma stable_ret {A} (a : A) : stable R (mret a).
Proof. intros s. cbn. reflexivity. Qed.

Lemma stable_raise {A} (e : exn) : stable R (@raise A e).
Proof. intros s. cbn. reflexivity. Qed.

Lemma stable_bind {A B} (m : M A) (f : A -> M B) :
  stable R m -> (forall a, stable R (f a)) -> stable R (m ≫= f).
Proof.
  intros Hm Hf s. unfold mbind, M_bind.
  specialize (Hm s). destruct (m s) as [[a|e] s1]; cbn in *; [|done].
  etrans; [exact Hm | apply Hf].
Qed.

(** What runs after [m] keeps [R] from the state [m] leaves. *)
Lemma stable_after {A B} (m : M A) (f : A -> M B) s :
  (forall a, stable R (f a)) -> R (m s).2 ((m ≫= f) s).2.
Proof.
  intros Hf. unfold mbind, M_bind.
  destruct (m s) as [[a|e] s1]; cbn; [apply Hf | reflexivity].
Qed.

Lemma stable_get_args : stable R get_args.
Proof. intros s. cbn. reflexivity. Qed.

Lemma stable_get_fs : stable R get_fs.
Proof. intros s. cbn. reflexivity. Qed.

Lemma stable_put_fs t : stable R (put_fs t).
Proof. intros s. apply frame_fs. Qed.

Lemma stable_emit e : ok e -> stable R (emit e).
Proof. intros He s. by apply frame_emit. Qed.

Lemma stable_path_exists p : stable R (path_exists p).
Proof.
  apply stable_bind; [apply stable_get_fs | intros; apply stable_ret].
Qed.

Lemma stable_rmtree p : stable R (rmtree p).
Proof.
  apply stable_bind; [apply stable_get_fs | intros t].
  repeat case_match; auto using stable_raise, stable_put_fs.
Qed.

Lemma stable_copytree src dst : stable R (copytree src dst).
Proof.
  apply stable_bind; [apply stable_get_fs | intros t].
  repeat case_match; auto using stable_raise, stable_put_fs.
Qed.

Lemma stable_mkdir_p p : stable R (mkdir_p p).
Proof.
  apply stable_bind; [apply stable_get_fs | intros t].
  repeat case_match; auto using stable_raise, stable_put_fs, stable_ret.
Qed.

Lemma stable_if {A} (b : bool) (m1 m2 : M A) :
  stable R m1 -> stable R m2 -> stable R (if b then m1 else m2).
Proof. by destruct b. Qed.

Section Children.
Variable subprocess_run :
  list string -> option path -> option (gmap string string) -> node ->
  exn + node.

Lemma stable_spawn cmd cwd env :
  ok (Spawn cmd cwd env) -> stable R (spawn subprocess_run cmd cwd env).
Proof.
  intros He. apply stable_bind; [by apply stable_emit | intros _].
  apply stable_bind; [apply stable_get_fs | intros t].
  case_match; auto using stable_raise, stable_put_fs.
Qed.

Lemma stable_run cmd cwd env :
  (forall l, ok (Print l)) -> ok (Spawn cmd cwd env) ->
  stable R (run subprocess_run cmd cwd env).
Proof.
  intros Hp He. apply stable_bind; [by apply stable_emit | intros _].
  by apply stable_spawn.
Qed.

End Children.

End FrameRules.

#[global] Instance args_kept_frame : Frame args_kept (fun _ => True).
Proof.
  split.
  - split; [by intros s | intros s1 s2 s3 H1 H2; unfold args_kept in *; congruence].
  - by intros s t.
  - by intros s e _.
Qed.

Lemma clones_snoc tr e :
  clones (tr ++ [e]) = (clones tr + if is_clone e then 1 else 0)%nat.
Proof.
  unfold clones. rewrite List.filter_app, length_app. cbn.
  by destruct (is_clone e).
Qed.

#[global] Instance clones_kept_frame :
  Frame clones_kept (fun e => is_clone e = false).
Proof.
  split.
  - split; [by intros s | intros s1 s2 s3 H1 H2; unfold clones_kept in *; congruence].
  - by intros s t.
  - intros s e He. unfold clones_kept. cbn [out]. rewrite clones_snoc, He. lia.
Qed.

#[global] Instance silent_frame : Frame silent (fun _ => False).
Proof.
  split.
  - split; [by intros s | intros s1 s2 s3 [H1 H1'] [H2 H2']; split; congruence].
  - by intros s t.
  - by intros s e [].
Qed.

(** ** The stages after source acquisition *)

Section Stages.
Context (R : relation State) (ok : event -> Prop) `{!Frame R ok}.
Variable ROOT : path.
Variable host_system : string.
Variable environ : gmap string string.
Variable subprocess_run :
  list string -> option path -> option (gmap string string) -> node ->
  exn + node.
Variable check_output : list string -> node -> exn + string.

Lemma stable_clean : stable R (clean_previous_outputs ROOT).
Proof.
  unfold clean_previous_outputs.
  apply (stable_bind R ok); [apply (stable_path_exists R ok) | intros d].
  apply (stable_bind R ok).
  { apply stable_if; [apply (stable_rmtree R ok) | apply (stable_ret R ok)]. }
  intros _. apply (stable_bind R ok); [apply (stable_path_exists R ok) | intros b].
  apply stable_if; [apply (stable_rmtree R ok) | apply (stable_ret R ok)].
Qed.

(** From here on the stages print, probe and start commands that are not
    clones. *)
Hypothesis ok_other : forall e, is_clone e = false -> ok e.

Lemma ok_print l : ok (Print l).
Proof. by apply ok_other. Qed.

Lemma ok_python_module exe rest cwd env :
  ok (Spawn (exe :: "-m" :: rest) cwd env).
Proof. apply ok_other. cbn. apply andb_false_r. Qed.

Lemma stable_ensure_python_version python_cmd :
  stable R (ensure_python_version check_output python_cmd).
Proof.
  unfold ensure_python_version.
  apply (stable_bind R ok); [apply (stable_emit R ok); by apply ok_other | intros _].
  apply (stable_bind R ok); [apply (stable_get_fs R ok) | intros t].
  repeat case_match; first [apply (stable_raise R ok) | apply (stable_ret R ok)].
Qed.

Lemma stable_ensure_venv python_cmd :
  stable R (ensure_venv ROOT host_system subprocess_run check_output python_cmd).
Proof.
  unfold ensure_venv.
  apply (stable_bind R ok); [apply stable_ensure_python_version | intros _].
  apply (stable_bind R ok); [apply (stable_path_exists R ok) | intros present].
  apply (stable_bind R ok).
  { apply stable_if; [apply (stable_ret R ok)|].
    apply (stable_run R ok); [apply ok_print | apply ok_python_module]. }
  intros _. apply (stable_bind R ok).
  { apply (stable_run R ok); [apply ok_print | apply ok_python_module]. }
  intros _. apply (stable_bind R ok).
  { apply (stable_run R ok); [apply ok_print | apply ok_python_module]. }
  intros _. apply (stable_ret R ok).
Qed.

Lemma stable_build_bundle python_bin output_suffix :
  stable R (build_bundle ROOT environ subprocess_run python_bin output_suffix).
Proof.
  unfold build_bundle.
  apply (stable_bind R ok); [apply (stable_mkdir_p R ok) | intros _].
  apply (stable_bind R ok); [apply (stable_mkdir_p R ok) | intros _].
  apply (stable_run R ok); [apply ok_print | apply ok_python_module].
Qed.

(** Provisioning, build and the closing notice. *)
Lemma stable_after_acquisition :
  stable R
    (a ← get_args;
     python_bin ← ensure_venv ROOT host_system subprocess_run check_output
                    (python a);
     a ← get_args;
     build_bundle ROOT environ subprocess_run python_bin
       (compute_output_name host_system a);;
     print success_notice).
Proof.
  apply (stable_bind R ok); [apply (stable_get_args R ok) | intros a].
  apply (stable_bind R ok); [apply stable_ensure_venv | intros python_bin].
  apply (stable_bind R ok); [apply (stable_get_args R ok) | intros a'].
  apply (stable_bind R ok); [apply stable_build_bundle | intros _].
  apply (stable_emit R ok). apply ok_print.
Qed.

End Stages.

(** ** Source acquisition *)

Section Acquisition.
Variable ROOT : path.
Variable subprocess_run :
  list string -> option path -> option (gmap string string) -> node ->
  exn + node.

Local Abbreviation acquire := (ensure_backend_sources ROOT subprocess_run).
Local Abbreviation staging := (BACKEND_SRC_DIR ROOT).
Local Abbreviation candidate := (local_candidate ROOT).

(** No [--source-path] and no sibling checkout: [args] stays as it is and
    the remote branch runs. *)
Lemma acquire_remote s :
  source_path (args s) = None ->
  Fs.exists_ candidate (fs s) = false ->
  acquire s = clone_sources ROOT subprocess_run (args s) s.
Proof.
  intros Hsp Hcand. unfold ensure_backend_sources.
  unfold mbind at 1 2. unfold M_bind at 1 2. unfold get_args at 1.
  rewrite Hsp. unfold path_exists at 1. unfold mbind at 1 2. unfold M_bind at 1 2.
  unfold get_fs at 1. unfold mret at 1. unfold M_ret at 1. rewrite Hcand.
  unfold mret at 1. unfold M_ret at 1.
  unfold mbind at 1. unfold M_bind at 1. unfold get_args at 1. rewrite Hsp.
  reflexivity.
Qed.

(** An explicit [--source-path]: the copy branch runs. *)
Lemma acquire_explicit s sp :
  source_path (args s) = Some sp ->
  acquire s = copy_sources ROOT sp s.
Proof.
  intros Hsp. unfold ensure_backend_sources.
  unfold mbind at 1 2. unfold M_bind at 1 2. unfold get_args at 1.
  rewrite Hsp. unfold mret at 1. unfold M_ret at 1.
  unfold mbind at 1. unfold M_bind at 1. unfold get_args at 1. rewrite Hsp.
  reflexivity.
Qed.

(** No [--source-path] but a sibling checkout: it becomes
    [args.source_path] and the copy branch runs. *)
Lemma acquire_adopts s :
  source_path (args s) = None ->
  Fs.exists_ candidate (fs s) = true ->
  acquire s = copy_sources ROOT candidate (adopted ROOT s).
Proof.
  intros Hsp Hcand. unfold ensure_backend_sources.
  unfold mbind at 1 2. unfold M_bind at 1 2. unfold get_args at 1.
  rewrite Hsp. unfold path_exists at 1. unfold mbind at 1 2. unfold M_bind at 1 2.
  unfold get_fs at 1. unfold mret at 1. unfold M_ret at 1. rewrite Hcand.
  reflexivity.
Qed.

(** *** File system steps *)

Lemma path_exists_run p s :
  path_exists p s = (Return (Fs.exists_ p (fs s)), s).
Proof. reflexivity. Qed.

Lemma rmtree_dir p es s :
  Fs.lookup p (fs s) = Some (Dir es) ->
  rmtree p s = (Return tt, {| args := args s; fs := Fs.remove p (fs s);
                              out := out s |}).
Proof.
  intros Hp. unfold rmtree, mbind, M_bind, get_fs. by rewrite Hp.
Qed.

Lemma mkdir_p_child r c s :
  Fs.is_dir r (fs s) = true ->
  Fs.dir_or_absent (r // c) (fs s) = true ->
  exists t',
    mkdir_p (r // c) s = (Return tt, {| args := args s; fs := t'; out := out s |})
    /\ Fs.is_dir (r // c) t' = true
    /\ Fs.is_dir r t' = true
    /\ (forall a p, a ≠ c ->
          Fs.lookup (r ++ a :: p) t' = Fs.lookup (r ++ a :: p) (fs s))
    /\ (Fs.lookup (r // c) (fs s) = None -> Fs.lookup (r // c) t' = Some (Dir [])).
Proof.
  intros Hr Hc. apply FsFacts.is_dir_lookup in Hr as [es Hr].
  unfold mkdir_p, mbind, M_bind, get_fs, Fs.dir_or_absent in *.
  destruct (Fs.lookup (r // c) (fs s)) as [[x|es']|] eqn:Hl; [done| |].
  - exists (fs s). unfold mret, M_ret, Fs.is_dir. rewrite Hl, Hr.
    destruct s; cbn. repeat split; try done.
  - destruct (FsFacts.place_child r c (Dir []) es (fs s) Hr) as (t' & Hp & Hr').
    unfold Path.child in *. rewrite Hp. exists t'. unfold put_fs, Fs.is_dir.
    rewrite (FsFacts.lookup_place_same _ _ _ _ Hp), Hr'.
    repeat split; try done.
    intros a p Ha. by eapply FsFacts.lookup_place_diverge.
Qed.

(** *** The clean step *)

(** [clean_previous_outputs] prints nothing, leaves [args] alone, creates
    nothing, and touches nothing under [ROOT] but [dist] and
    [build-artifacts]. *)
Lemma clean_run s :
  exists t',
    (clean_previous_outputs ROOT s).2
    = {| args := args s; fs := t'; out := out s |}
    /\ (forall q, Fs.lookup q (fs s) = None -> Fs.lookup q t' = None)
    /\ (forall c p, c ≠ "dist" -> c ≠ "build-artifacts" ->
          Fs.lookup (ROOT ++ c :: p) t' = Fs.lookup (ROOT ++ c :: p) (fs s)).
Proof.
  unfold clean_previous_outputs, mbind, M_bind.
  rewrite path_exists_run. unfold Fs.exists_.
  assert (Hid : forall x : State,
             {| args := args x; fs := fs x; out := out x |} = x)
    by (by intros []).
  assert (Hstep : forall p' c' (x : State),
    (c' = "dist" \/ c' = "build-artifacts") -> p' = ROOT // c' ->
    exists t1,
      ((if match Fs.lookup p' (fs x) with Some _ => true | None => false end
        then rmtree p' else mret tt) x).2
      = {| args := args x; fs := t1; out := out x |}
      /\ (forall q, Fs.lookup q (fs x) = None -> Fs.lookup q t1 = None)
      /\ (forall c p, c ≠ "dist" -> c ≠ "build-artifacts" ->
            Fs.lookup (ROOT ++ c :: p) t1 = Fs.lookup (ROOT ++ c :: p) (fs x))).
  { intros p' c' x Hc' ->. unfold rmtree, mbind, M_bind, get_fs.
    destruct (Fs.lookup (ROOT // c') (fs x)) as [[f|es]|] eqn:Hl; cbn;
      rewrite ?Hl; cbn.
    - exists (fs x). by rewrite Hid.
    - exists (Fs.remove (ROOT // c') (fs x)). split; [done|]. split.
      + intros q Hq. by apply FsFacts.lookup_remove_none.
      + intros c p H1 H2. unfold Path.child.
        apply FsFacts.lookup_remove_diverge. by destruct Hc' as [->| ->].
    - exists (fs x). by rewrite Hid. }
  destruct (Hstep (DIST_DIR ROOT) "dist" s) as (t1 & E1 & M1 & F1); [by left|done|].
  destruct ((if match Fs.lookup (DIST_DIR ROOT) (fs s) with
                | Some _ => true | None => false end
             then rmtree (DIST_DIR ROOT) else mret tt) s) as [[[]|e] s1] eqn:Hd;
    cbn [snd] in E1; subst s1.
  - rewrite path_exists_run. cbn [fs].
    destruct (Hstep (BUILD_DIR ROOT) "build-artifacts"
                {| args := args s; fs := t1; out := out s |})
      as (t2 & E2 & M2 & F2); [by right|done|].
    cbn [fs args out] in *. unfold Fs.exists_. exists t2. split; [exact E2|].
    split.
    + intros q Hq. by apply M2, M1.
    + intros c p H1 H2. by rewrite F2, F1.
  - by exists t1.
Qed.

(** On output directories that are directories or absent, the clean step
    succeeds and leaves neither. *)
Lemma clean_removes s :
  Fs.dir_or_absent (DIST_DIR ROOT) (fs s) = true ->
  Fs.dir_or_absent (BUILD_DIR ROOT) (fs s) = true ->
  exists t',
    clean_previous_outputs ROOT s
    = (Return tt, {| args := args s; fs := t'; out := out s |})
    /\ Fs.lookup (DIST_DIR ROOT) t' = None
    /\ Fs.lookup (BUILD_DIR ROOT) t' = None
    /\ (Fs.lookup (DIST_DIR ROOT) (fs s) = None ->
        Fs.lookup (BUILD_DIR ROOT) (fs s) = None -> t' = fs s).
Proof.
  intros Hd Hb. unfold Fs.dir_or_absent in *.
  assert (Hne : forall c, ROOT // c ≠ []) by (intros c; by destruct ROOT).
  assert (Hdb : forall t, Fs.lookup (BUILD_DIR ROOT)
                            (Fs.remove (DIST_DIR ROOT) t)
                          = Fs.lookup (BUILD_DIR ROOT) t).
  { intros t. unfold BUILD_DIR, DIST_DIR, Path.child.
    by apply FsFacts.lookup_remove_diverge. }
  unfold clean_previous_outputs, mbind, M_bind.
  rewrite path_exists_run. unfold Fs.exists_.
  destruct (Fs.lookup (DIST_DIR ROOT) (fs s)) as [[f|es]|] eqn:Hld; [done| |].
  - rewrite (rmtree_dir _ es) by done. rewrite path_exists_run.
    cbn [fs args out]. unfold Fs.exists_. rewrite Hdb.
    destruct (Fs.lookup (BUILD_DIR ROOT) (fs s)) as [[f|es']|] eqn:Hlb; [done| |].
    + rewrite (rmtree_dir _ es') by (cbn [fs]; by rewrite Hdb).
      cbn [fs args out]. eexists. split; [done|]. split; [|split; [|done]].
      * apply FsFacts.lookup_remove_none, FsFacts.lookup_remove_same, Hne.
      * apply FsFacts.lookup_remove_same, Hne.
    + eexists. split; [done|]. split; [|split; [|done]].
      * apply FsFacts.lookup_remove_same, Hne.
      * by rewrite Hdb.
  - unfold mret at 1. unfold M_ret. rewrite path_exists_run. unfold Fs.exists_.
    destruct (Fs.lookup (BUILD_DIR ROOT) (fs s)) as [[f|es']|] eqn:Hlb; [done| |].
    + rewrite (rmtree_dir _ es') by done. eexists. split; [done|].
      split; [|split; [|done]].
      * by apply FsFacts.lookup_remove_none.
      * apply FsFacts.lookup_remove_same, Hne.
    + exists (fs s). by destruct s.
Qed.

(** *** The copy branch *)

Lemma copy_missing sp s :
  Fs.lookup sp (fs s) = None ->
  copy_sources ROOT sp s = (Raise (missing_source sp), s).
Proof.
  intros Hsp. unfold copy_sources, Path.resolve, mbind, M_bind.
  rewrite path_exists_run. unfold Fs.exists_. by rewrite Hsp.
Qed.

Lemma copytree_run src dst es t' s :
  Fs.lookup src (fs s) = Some (Dir es) ->
  Fs.lookup dst (fs s) = None ->
  Fs.place dst (Fs.prune (Dir es)) (fs s) = Some t' ->
  copytree src dst s
  = (Return tt, {| args := args s; fs := t'; out := out s |}).
Proof.
  intros Hsrc Hdst Hp. unfold copytree, mbind, M_bind, get_fs.
  by rewrite Hsrc, Hdst, Hp.
Qed.

(** A source directory that leaves the staging path at some component is
    copied, pruned, over whatever tree was staged; the source stays. *)
Lemma copy_replaces r a b p q sp es s :
  staging = r ++ b :: q -> sp = r ++ a :: p -> a ≠ b ->
  Fs.lookup sp (fs s) = Some (Dir es) ->
  Fs.is_dir ROOT (fs s) = true ->
  Fs.dir_or_absent staging (fs s) = true ->
  exists t',
    copy_sources ROOT sp s
    = (Return tt, {| args := args s; fs := t';
                     out := out s ++ [Print (copied_notice sp)] |})
    /\ Fs.lookup staging t' = Some (Fs.prune (Dir es))
    /\ Fs.lookup sp t' = Some (Dir es).
Proof.
  intros Hst -> Hab Hsp Hroot Hdir.
  apply FsFacts.is_dir_lookup in Hroot as [es0 Hroot].
  unfold copy_sources, Path.resolve, mbind, M_bind.
  rewrite path_exists_run. unfold Fs.exists_ at 1. rewrite Hsp. cbn [negb].
  rewrite path_exists_run. unfold Fs.exists_, Fs.dir_or_absent in *.
  destruct (Fs.lookup staging (fs s)) as [[f|es1]|] eqn:Hl; [done| |].
  - rewrite (rmtree_dir _ es1) by done.
    set (t1 := Fs.remove staging (fs s)).
    assert (H1 : Fs.lookup staging t1 = None).
    { apply FsFacts.lookup_remove_same. unfold BACKEND_SRC_DIR, Path.child.
      by destruct ROOT. }
    assert (H2 : Fs.lookup (r ++ a :: p) t1 = Some (Dir es)).
    { subst t1. rewrite Hst. by rewrite FsFacts.lookup_remove_diverge. }
    assert (H3 : Fs.lookup ROOT t1 = Some (Dir (Fs.entry_del "kshana" es0))).
    { by apply FsFacts.lookup_remove_parent. }
    destruct (FsFacts.place_child ROOT "kshana" (Fs.prune (Dir es)) _ t1 H3)
      as (t' & Hp & _).
    rewrite (copytree_run _ _ es t') by done.
    exists t'. split; [done|]. split.
    + by eapply FsFacts.lookup_place_same.
    + rewrite <- H2. unfold BACKEND_SRC_DIR, Path.child in Hst. rewrite Hst in Hp.
      by eapply FsFacts.lookup_place_diverge.
  - unfold mret at 1. unfold M_ret.
    destruct (FsFacts.place_child ROOT "kshana" (Fs.prune (Dir es)) _ (fs s)
                Hroot) as (t' & Hp & _).
    rewrite (copytree_run _ _ es t') by done.
    exists t'. split; [done|]. split.
    + by eapply FsFacts.lookup_place_same.
    + rewrite <- Hsp. unfold BACKEND_SRC_DIR, Path.child in Hst. rewrite Hst in Hp.
      by eapply FsFacts.lookup_place_diverge.
Qed.

(** *** The remote branch *)

Lemma clone_skips a s :
  Fs.exists_ staging (fs s) = true ->
  clone_sources ROOT subprocess_run a s
  = (Return tt, {| args := args s; fs := fs s;
                   out := out s ++ [Print skip_notice] |}).
Proof.
  intros Hst. unfold clone_sources, mbind, M_bind.
  rewrite path_exists_run. by rewrite Hst.
Qed.

Lemma run_run cmd cwd env s :
  run subprocess_run cmd cwd env s =
  let s1 := {| args := args s; fs := fs s;
               out := out s ++ [run_line cmd; Spawn cmd cwd env] |} in
  match subprocess_run cmd cwd env (fs s) with
  | inl e => (Raise e, s1)
  | inr t' => (Return tt, {| args := args s; fs := t'; out := out s1 |})
  end.
Proof.
  unfold run, spawn, print, emit, mbind, M_bind, get_fs, put_fs, raise, run_line.
  cbn. rewrite <- app_assoc. cbn. by destruct (subprocess_run cmd cwd env (fs s)).
Qed.

Lemma clone_runs a s :
  Fs.exists_ staging (fs s) = false ->
  out (clone_sources ROOT subprocess_run a s).2
  = out s ++ [run_line (clone_cmd ROOT); Spawn (clone_cmd ROOT) None None]
      ++ (if match subprocess_run (clone_cmd ROOT) None None (fs s) with
             | inr _ => wants_checkout (ref a)
             | inl _ => false
             end
          then [run_line (checkout_cmd (ref a));
                Spawn (checkout_cmd (ref a)) (Some staging) None]
          else [])
  /\ args (clone_sources ROOT subprocess_run a s).2 = args s.
Proof.
  intros Hst. unfold clone_sources, mbind, M_bind.
  rewrite path_exists_run, Hst. rewrite run_run. cbn zeta.
  destruct (subprocess_run (clone_cmd ROOT) None None (fs s)) as [e|t'].
  - cbn. by rewrite ?app_nil_r.
  - destruct (wants_checkout (ref a)).
    + rewrite run_run. cbn zeta. cbn [fs out args].
      destruct (subprocess_run (checkout_cmd (ref a)) _ _ t'); cbn;
        by rewrite <- ?app_assoc.
    + cbn. by rewrite ?app_nil_r.
Qed.

End Acquisition.

(** ** Claims on source acquisition *)

Lemma clones_app tr1 tr2 : clones (tr1 ++ tr2) = (clones tr1 + clones tr2)%nat.
Proof. unfold clones. by rewrite List.filter_app, length_app. Qed.

Lemma wants_checkout_not_main r : wants_checkout r = true -> r ≠ "main" /\ r ≠ EmptyString.
Proof.
  unfold wants_checkout. intros H. apply andb_prop in H as [H1 H2].
  split; intros ->; done.
Qed.

(** The pipeline from the state source acquisition leaves: provisioning
    and build start no clone. *)
Lemma pipeline_clones ROOT host environ subprocess_run check_output s :
  clones (out (pipeline ROOT host environ subprocess_run check_output s).2)
  = clones (out (ensure_backend_sources ROOT subprocess_run s).2).
Proof.
  unfold pipeline.
  apply (stable_after clones_kept (fun e => is_clone e = false)).
  intros _. by apply (stable_after_acquisition clones_kept (fun e => is_clone e = false)).
Qed.

(** C1 (amended). When source acquisition starts with no [--source-path],
    nothing at the sibling path [ROOT.parent.parent / "kshana"] (neither a
    directory nor a file: the code tests [exists()]) and nothing staged,
    it starts [git clone] once, and [git checkout] after it exactly when
    the clone succeeded and the revision is neither empty nor ["main"];
    the whole pipeline holds that one clone and no other. *)
Theorem clone_once_without_sibling
    (ROOT : path) (host : string) (environ : gmap string string)
    (subprocess_run : list string -> option path ->
                      option (gmap string string) -> node -> exn + node)
    (check_output : list string -> node -> exn + string) (s : State) :
  source_path (args s) = None ->
  Fs.exists_ (local_candidate ROOT) (fs s) = false ->
  Fs.exists_ (BACKEND_SRC_DIR ROOT) (fs s) = false ->
  let s1 := (ensure_backend_sources ROOT subprocess_run s).2 in
  let r := ref (args s) in
  out s1
  = out s ++ [run_line (clone_cmd ROOT); Spawn (clone_cmd ROOT) None None]
      ++ (if match subprocess_run (clone_cmd ROOT) None None (fs s) with
             | inr _ => wants_checkout r
             | inl _ => false
             end
          then [run_line (checkout_cmd r);
                Spawn (checkout_cmd r) (Some (BACKEND_SRC_DIR ROOT)) None]
          else [])
  /\ (r = "main" -> spawned (out s1) = spawned (out s) ++ [clone_cmd ROOT])
  /\ clones (out s1) = (clones (out s) + 1)%nat
  /\ clones (out (pipeline ROOT host environ subprocess_run check_output s).2)
     = (clones (out s) + 1)%nat
  /\ args s1 = args s.
Proof.
  intros Hsp Hcand Hst. cbn zeta. rewrite pipeline_clones.
  rewrite acquire_remote by done.
  destruct (clone_runs ROOT subprocess_run (args s) s Hst) as [Hout Hargs].
  assert (Hcount :
    clones (out (clone_sources ROOT subprocess_run (args s) s).2)
    = (clones (out s) + 1)%nat).
  { rewrite Hout, !clones_app. case_match; cbn; lia. }
  split; [exact Hout|]. split; [|done].
  intros Hmain. rewrite Hout, Hmain. cbn [wants_checkout String.eqb negb andb].
  unfold spawned. rewrite !omap_app.
  destruct (subprocess_run _ _ _ _); cbn; by rewrite ?app_nil_r.
Qed.

Lemma clone_once_without_sibling_witness :
  let s := Sample.start_at (Sample.parsed None "v1" false "python3") Sample.fresh in
  spawned (out (ensure_backend_sources Sample.ROOT Sample.subprocess_run s).2)
  = [clone_cmd Sample.ROOT; checkout_cmd "v1"]
  /\ clones (out (pipeline Sample.ROOT "Linux" Sample.environ
                    Sample.subprocess_run Sample.check_output s).2) = 1%nat.
Proof.
  cbn zeta.
  destruct (clone_once_without_sibling Sample.ROOT "Linux" Sample.environ
              Sample.subprocess_run Sample.check_output
              (Sample.start_at (Sample.parsed None "v1" false "python3")
                 Sample.fresh) eq_refl eq_refl eq_refl)
    as (Hout & _ & _ & Hpipe & _).
  split; [rewrite Hout; reflexivity | exact Hpipe].
Defined.

(** C1 fails as stated: with a sibling checkout [/home/dev/kshana], no
    [--source-path] and nothing staged, the run clones nothing. *)
Lemma clone_once_counterexample :
  let parsed := Sample.parsed None "main" false "python3" in
  source_path parsed = None
  /\ Fs.exists_ (BACKEND_SRC_DIR Sample.ROOT) Sample.with_sibling = false
  /\ clones (out (invoke Sample.ROOT "Linux" Sample.environ
                    Sample.subprocess_run Sample.check_output parsed
                    Sample.with_sibling).2) = 0%nat.
Proof. cbn zeta. split; [reflexivity|]. split; vm_compute; reflexivity. Qed.

(** C2 (amended).  When source acquisition starts with no [--source-path],
    nothing at the sibling path [ROOT.parent.parent / "kshana"] (neither a
    directory nor a file: the code tests [exists()]) and a staged tree in
    place, it returns having printed the notice and nothing else: no
    command is started, the file system and [args] are as they were. *)
Theorem staged_tree_skipped
    (ROOT : path)
    (subprocess_run : list string -> option path ->
                      option (gmap string string) -> node -> exn + node)
    (s : State) :
  source_path (args s) = None ->
  Fs.exists_ (local_candidate ROOT) (fs s) = false ->
  Fs.exists_ (BACKEND_SRC_DIR ROOT) (fs s) = true ->
  ensure_backend_sources ROOT subprocess_run s
  = (Return tt, {| args := args s; fs := fs s;
                   out := out s ++ [Print skip_notice] |}).
Proof.
  intros Hsp Hcand Hst. rewrite acquire_remote by done. by apply clone_skips.
Qed.

Lemma staged_tree_skipped_witness :
  let s := Sample.start_at (Sample.parsed None "main" false "python3")
             Sample.staged_only in
  ensure_backend_sources Sample.ROOT Sample.subprocess_run s
  = (Return tt, {| args := args s; fs := Sample.staged_only;
                   out := [Print skip_notice] |}).
Proof.
  cbn zeta.
  exact (staged_tree_skipped Sample.ROOT Sample.subprocess_run
           (Sample.start_at (Sample.parsed None "main" false "python3")
              Sample.staged_only) eq_refl eq_refl eq_refl).
Defined.

(** C2 fails as stated: with a sibling checkout, no [--source-path] and a
    staged tree in place, acquisition replaces the staged tree by a copy
    and prints the copy notice, not the skip notice. *)
Lemma staged_tree_skipped_counterexample :
  let s := Sample.start_at (Sample.parsed None "main" false "python3")
             Sample.with_sibling_staged in
  let s' := (ensure_backend_sources Sample.ROOT Sample.subprocess_run s).2 in
  source_path (args s) = None
  /\ Fs.exists_ (BACKEND_SRC_DIR Sample.ROOT) (fs s) = true
  /\ Fs.lookup (BACKEND_SRC_DIR Sample.ROOT) (fs s')
     ≠ Fs.lookup (BACKEND_SRC_DIR Sample.ROOT) (fs s)
  /\ out s' = [Print (copied_notice (local_candidate Sample.ROOT))].
Proof.
  cbn zeta. split; [reflexivity|]. split; [reflexivity|].
  split; [vm_compute; discriminate | vm_compute; reflexivity].
Qed.

(** ** The build configuration *)

Lemma copy_sources_args ROOT sp s :
  args (copy_sources ROOT sp s).2 = args s.
Proof.
  revert s. change (stable args_kept (copy_sources ROOT sp)).
  unfold copy_sources.
  apply (stable_bind _ (fun _ => True)); [apply (stable_path_exists _ (fun _ => True)) | intros found].
  apply stable_if; [apply (stable_raise _ (fun _ => True))|].
  apply (stable_bind _ (fun _ => True)); [apply (stable_path_exists _ (fun _ => True)) | intros staged].
  apply (stable_bind _ (fun _ => True)).
  { apply stable_if; [apply (stable_rmtree _ (fun _ => True)) | apply (stable_ret _ (fun _ => True))]. }
  intros _. apply (stable_bind _ (fun _ => True)); [apply (stable_copytree _ (fun _ => True)) | intros _].
  by apply (stable_emit _ (fun _ => True)).
Qed.

Lemma clone_sources_args ROOT subprocess_run a s :
  args (clone_sources ROOT subprocess_run a s).2 = args s.
Proof.
  revert s. change (stable args_kept (clone_sources ROOT subprocess_run a)).
  unfold clone_sources.
  apply (stable_bind _ (fun _ => True)); [apply (stable_path_exists _ (fun _ => True)) | intros staged].
  apply stable_if; [by apply (stable_emit _ (fun _ => True))|].
  apply (stable_bind _ (fun _ => True)); [by apply (stable_run _ (fun _ => True)) | intros _].
  apply stable_if; [by apply (stable_run _ (fun _ => True)) | apply (stable_ret _ (fun _ => True))].
Qed.

Lemma pipeline_args ROOT host environ subprocess_run check_output s :
  args (pipeline ROOT host environ subprocess_run check_output s).2
  = args (ensure_backend_sources ROOT subprocess_run s).2.
Proof.
  unfold pipeline. apply (stable_after args_kept (fun _ => True)).
  intros _. by apply (stable_after_acquisition args_kept (fun _ => True)).
Qed.

Lemma main_run ROOT host environ subprocess_run check_output s :
  main ROOT host environ subprocess_run check_output s
  = if clean (args s)
    then match clean_previous_outputs ROOT s with
         | (Return _, s1) =>
             pipeline ROOT host environ subprocess_run check_output s1
         | (Raise e, s1) => (Raise e, s1)
         end
    else pipeline ROOT host environ subprocess_run check_output s.
Proof.
  unfold main, mbind, M_bind, get_args. destruct (clean (args s)); [|done].
  by destruct (clean_previous_outputs ROOT s) as [[[]|e] s1].
Qed.

(** The sibling checkout is not inside an output directory: the clean
    step cannot remove or create it. *)
Lemma candidate_outside_outputs ROOT c :
  c ≠ "kshana" -> ¬ (ROOT // c) `prefix_of` local_candidate ROOT.
Proof.
  intros Hc Hpre. unfold local_candidate, Path.parent, Path.child in Hpre.
  pose proof (prefix_length _ _ Hpre) as Hlen.
  rewrite !length_app, !removelast_firstn_len, !length_take in Hlen.
  cbn [length] in Hlen.
  destruct ROOT as [|k r]; [|cbn [length] in Hlen; lia].
  cbn in Hpre. apply prefix_cons_inv_1 in Hpre. done.
Qed.

Lemma clean_fs ROOT s :
  let t' := fs (clean_previous_outputs ROOT s).2 in
  t' = fs s
  \/ t' = Fs.remove (DIST_DIR ROOT) (fs s)
  \/ t' = Fs.remove (BUILD_DIR ROOT) (fs s)
  \/ t' = Fs.remove (BUILD_DIR ROOT) (Fs.remove (DIST_DIR ROOT) (fs s)).
Proof.
  cbn zeta.
  unfold clean_previous_outputs, path_exists, rmtree, mbind, M_bind, get_fs,
    put_fs, mret, M_ret, raise, Fs.exists_.
  cbn [fs].
  repeat (case_match; simplify_eq/=); auto.
Qed.

Lemma clean_keeps_candidate ROOT s :
  Fs.exists_ (local_candidate ROOT) (fs (clean_previous_outputs ROOT s).2)
  = Fs.exists_ (local_candidate ROOT) (fs s).
Proof.
  assert (Hd : forall t, Fs.exists_ (local_candidate ROOT)
                           (Fs.remove (DIST_DIR ROOT) t)
                         = Fs.exists_ (local_candidate ROOT) t).
  { intros t. by apply FsFacts.exists_remove_outside, candidate_outside_outputs. }
  assert (Hb : forall t, Fs.exists_ (local_candidate ROOT)
                           (Fs.remove (BUILD_DIR ROOT) t)
                         = Fs.exists_ (local_candidate ROOT) t).
  { intros t. by apply FsFacts.exists_remove_outside, candidate_outside_outputs. }
  destruct (clean_fs ROOT s) as [->|[->|[->| ->]]]; by rewrite ?Hb, ?Hd.
Qed.

(** What source acquisition leaves in [args]: the sibling checkout as
    source location when none was set and something exists at the sibling
    path, and otherwise what it found. *)
Lemma acquire_args_exact ROOT subprocess_run s :
  args (ensure_backend_sources ROOT subprocess_run s).2
  = match source_path (args s) with
    | None =>
        if Fs.exists_ (local_candidate ROOT) (fs s)
        then args (adopted ROOT s) else args s
    | Some _ => args s
    end.
Proof.
  destruct (source_path (args s)) as [sp|] eqn:Hsp.
  - rewrite (acquire_explicit _ _ _ sp) by done. apply copy_sources_args.
  - destruct (Fs.exists_ (local_candidate ROOT) (fs s)) eqn:Hc.
    + rewrite acquire_adopts by done. by rewrite copy_sources_args.
    + rewrite acquire_remote by done. apply clone_sources_args.
Qed.

(** C4 (amended).  Over a whole invocation the revision, the platform, the
    clean flag and the interpreter path keep the values argument parsing
    gave them.  The source location becomes the sibling path
    [ROOT.parent.parent / "kshana"] when none was given, something (a
    directory or a file) exists at that path, and the run reaches source
    acquisition, that is the clean step was not asked for or returned.  In
    every other case the record after the run is the record argument
    parsing produced.  The clean step, provisioning and build never change
    the record. *)
Theorem args_change_only_by_adoption
    (ROOT : path) (host : string) (environ : gmap string string)
    (subprocess_run : list string -> option path ->
                      option (gmap string string) -> node -> exn + node)
    (check_output : list string -> node -> exn + string)
    (parsed : Namespace) (t : node) :
  let s' := (invoke ROOT host environ subprocess_run check_output parsed t).2 in
  let cleaned := clean_previous_outputs ROOT (start_state parsed t) in
  ref (args s') = ref parsed
  /\ platform (args s') = platform parsed
  /\ clean (args s') = clean parsed
  /\ python (args s') = python parsed
  /\ (source_path parsed = None ->
      Fs.exists_ (local_candidate ROOT) t = true ->
      (clean parsed = false \/ exists s1, cleaned = (Return tt, s1)) ->
      source_path (args s') = Some (local_candidate ROOT))
  /\ ((exists sp, source_path parsed = Some sp)
      \/ Fs.exists_ (local_candidate ROOT) t = false
      \/ (clean parsed = true /\ exists e s1, cleaned = (Raise e, s1)) ->
      args s' = parsed)
  /\ (forall s, args (clean_previous_outputs ROOT s).2 = args s)
  /\ (forall s py,
        args (ensure_venv ROOT host subprocess_run check_output py s).2 = args s)
  /\ (forall s python_bin suffix,
        args (build_bundle ROOT environ subprocess_run python_bin suffix s).2
        = args s).
Proof.
  cbn zeta. unfold invoke. fold (start_state parsed t). rewrite main_run.
  cbn [args start_state].
  assert (Hp : forall s1, args s1 = parsed ->
     Fs.exists_ (local_candidate ROOT) (fs s1)
     = Fs.exists_ (local_candidate ROOT) t ->
     args (pipeline ROOT host environ subprocess_run check_output s1).2
     = match source_path parsed with
       | None =>
           if Fs.exists_ (local_candidate ROOT) t
           then {| source_path := Some (local_candidate ROOT);
                   ref := ref parsed; platform := platform parsed;
                   clean := clean parsed; python := python parsed |}
           else parsed
       | Some _ => parsed
       end).
  { intros s1 H1 H2. rewrite pipeline_args, acquire_args_exact, H1, H2.
    destruct (source_path parsed); [done|].
    destruct (Fs.exists_ (local_candidate ROOT) t); [|done].
    unfold adopted. cbn [args]. by rewrite H1. }
  pose proof (stable_clean args_kept (fun _ => True) ROOT (start_state parsed t))
    as Hargs.
  pose proof (clean_keeps_candidate ROOT (start_state parsed t)) as Hcand.
  unfold args_kept in Hargs. cbn [args fs start_state] in Hargs, Hcand.
  assert (Hframe :
    (forall s, args (clean_previous_outputs ROOT s).2 = args s)
    /\ (forall s py,
          args (ensure_venv ROOT host subprocess_run check_output py s).2
          = args s)
    /\ (forall s python_bin suffix,
          args (build_bundle ROOT environ subprocess_run python_bin suffix s).2
          = args s)).
  { split; [|split].
    - intros s. apply (stable_clean args_kept (fun _ => True)).
    - intros s py. by apply (stable_ensure_venv args_kept (fun _ => True)).
    - intros s pb sfx. by apply (stable_build_bundle args_kept (fun _ => True)). }
  destruct Hframe as (F1 & F2 & F3).
  destruct (clean parsed) eqn:Hclean.
  - destruct (clean_previous_outputs ROOT (start_state parsed t))
      as [[[]|e] s1] eqn:Hc; cbn [snd] in *.
    + rewrite (Hp s1 Hargs Hcand).
      destruct (source_path parsed) as [sp|] eqn:Hsp.
      * repeat split; done.
      * destruct (Fs.exists_ (local_candidate ROOT) t) eqn:Hex; cbn.
        -- repeat split; try done.
           intros [[sp Hsp']|[H|[_ (e & s2 & H)]]]; done.
        -- repeat split; done.
    + rewrite Hargs. repeat split; try done.
      intros _ _ [H|[s2 H]]; done.
  - rewrite (Hp (start_state parsed t)) by done.
    destruct (source_path parsed) as [sp|] eqn:Hsp.
    + repeat split; done.
    + destruct (Fs.exists_ (local_candidate ROOT) t) eqn:Hex; cbn.
      * repeat split; try done.
        intros [[sp Hsp']|[H|[H _]]]; done.
      * repeat split; done.
Qed.

(** C4 fails as stated: with a sibling checkout and no [--source-path],
    [args] after the run is not what argument parsing produced. *)
Lemma args_never_mutated_counterexample :
  let parsed := Sample.parsed None "main" false "python3" in
  args (invoke Sample.ROOT "Linux" Sample.environ Sample.subprocess_run
          Sample.check_output parsed Sample.with_sibling).2
  ≠ parsed
  /\ source_path
       (args (ensure_backend_sources Sample.ROOT Sample.subprocess_run
                (Sample.start_at parsed Sample.with_sibling)).2)
     = Some ["home"; "dev"; "kshana"].
Proof. cbn zeta. split; [vm_compute; discriminate | vm_compute; reflexivity]. Qed.

(** ** Provisioning *)

(** C5.  When the interpreter answers the version probe with a version
    [major.minor.patch] whose [(major, minor)] is below [(3, 10)], whatever
    the patch level, provisioning raises the version error, whose message
    holds the interpreter as it was given and the version as it was
    reported; nothing was started and the file system, so also the
    environment directory, is what it was. *)
Theorem old_interpreter_rejected
    (ROOT : path) (host : string)
    (subprocess_run : list string -> option path ->
                      option (gmap string string) -> node -> exn + node)
    (check_output : list string -> node -> exn + string)
    (python_cmd text : string) (major minor patch : Z) (s : State) :
  check_output (version_probe python_cmd) (fs s) = inr text ->
  PyStr.int <$> PyStr.split "." (PyStr.strip text)
  = [Some major; Some minor; Some patch] ->
  major < 3 \/ (major = 3 /\ minor < 10) ->
  let version_str := PyStr.strip text in
  let r := ensure_venv ROOT host subprocess_run check_output python_cmd s in
  r.1 = Raise (RuntimeError
                 ("Python 3.10+ is required. Interpreter '" +:+ python_cmd
                  +:+ "' reports " +:+ version_str
                  +:+ ". Use --python to provide a newer runtime (e.g., pyenv, uv, or Python.org builds)."))
  /\ fs r.2 = fs s
  /\ Fs.lookup (VENV_PATH ROOT) (fs r.2) = Fs.lookup (VENV_PATH ROOT) (fs s)
  /\ spawned (out r.2) = spawned (out s)
  /\ out r.2 = out s ++ [Probe (version_probe python_cmd)].
Proof.
  intros Hprobe Hparse Hlt. cbn zeta.
  assert (Hrun :
    ensure_venv ROOT host subprocess_run check_output python_cmd s
    = (Raise (RuntimeError (version_message python_cmd (PyStr.strip text))),
       {| args := args s; fs := fs s;
          out := out s ++ [Probe (version_probe python_cmd)] |})).
  { unfold ensure_venv. unfold mbind at 1. unfold M_bind at 1.
    unfold ensure_python_version, mbind, M_bind, emit, get_fs. cbn [fs].
    rewrite Hprobe, Hparse.
    assert (Hb : pair_ltb (major, minor) (3, 10) = true).
    { unfold pair_ltb. cbn [fst snd]. destruct Hlt as [H|[-> H]].
      - apply Z.ltb_lt in H. by rewrite H.
      - apply Z.ltb_lt in H. rewrite H. done. }
    by rewrite Hb. }
  rewrite Hrun. cbn [fst snd fs out].
  split; [done|]. split; [done|]. split; [done|]. split; [|done].
  unfold spawned. rewrite omap_app. cbn. by rewrite app_nil_r.
Qed.

Lemma old_interpreter_rejected_witness :
  let s := Sample.start_at (Sample.parsed None "main" false "python3.9")
             Sample.fresh in
  let r := ensure_venv Sample.ROOT "Linux" Sample.subprocess_run
             Sample.check_output "python3.9" s in
  r.1 = Raise (RuntimeError
                 "Python 3.10+ is required. Interpreter 'python3.9' reports 3.9.18. Use --python to provide a newer runtime (e.g., pyenv, uv, or Python.org builds).")
  /\ Fs.lookup (VENV_PATH Sample.ROOT) (fs r.2) = None.
Proof.
  cbn zeta.
  destruct (old_interpreter_rejected Sample.ROOT "Linux" Sample.subprocess_run
              Sample.check_output "python3.9" "3.9.18
" 3 9 18
              (Sample.start_at (Sample.parsed None "main" false "python3.9")
                 Sample.fresh) eq_refl eq_refl)
    as (Hr & _ & Hvenv & _).
  - right. split; [reflexivity | reflexivity].
  - split; [exact Hr | rewrite Hvenv; reflexivity].
Defined.

(** ** A missing source path *)

(** C6 (amended).  An invocation with [--source-path P], where nothing
    exists at [P], aborts before provisioning and build: no command is
    started and nothing is printed, [args] is untouched and the environment
    directory is what it was.  The error is the missing-source error
    whenever the run reaches source acquisition, that is unless [--clean]
    was given and removing [dist] or [build-artifacts] failed. *)
Theorem missing_source_aborts_before_provisioning
    (ROOT : path) (host : string) (environ : gmap string string)
    (subprocess_run : list string -> option path ->
                      option (gmap string string) -> node -> exn + node)
    (check_output : list string -> node -> exn + string)
    (parsed : Namespace) (sp : path) (t : node) :
  source_path parsed = Some sp ->
  Fs.lookup sp t = None ->
  let r := invoke ROOT host environ subprocess_run check_output parsed t in
  (exists e, r.1 = Raise e)
  /\ out r.2 = []
  /\ args r.2 = parsed
  /\ Fs.lookup (VENV_PATH ROOT) (fs r.2) = Fs.lookup (VENV_PATH ROOT) t
  /\ (clean parsed = false
      \/ (clean_previous_outputs ROOT (start_state parsed t)).1 = Return tt ->
      r.1 = Raise (missing_source sp)).
Proof.
  intros Hsp Hmiss. cbn zeta. unfold invoke. fold (start_state parsed t).
  rewrite main_run.
  assert (Hpipe : forall t1, Fs.lookup sp t1 = None ->
    pipeline ROOT host environ subprocess_run check_output
      {| args := parsed; fs := t1; out := [] |}
    = (Raise (missing_source sp), {| args := parsed; fs := t1; out := [] |})).
  { intros t1 H1. unfold pipeline. unfold mbind at 1. unfold M_bind at 1.
    rewrite (acquire_explicit _ _ _ sp) by done.
    by rewrite copy_missing. }
  destruct (clean_run ROOT (start_state parsed t))
    as (t1 & Hst & Hmono & Hframe).
  assert (Hvenv : Fs.lookup (VENV_PATH ROOT) t1 = Fs.lookup (VENV_PATH ROOT) t).
  { unfold VENV_PATH, Path.child. by apply Hframe. }
  cbn [args start_state] in *.
  destruct (clean parsed).
  - destruct (clean_previous_outputs ROOT (start_state parsed t))
      as [[[]|e] s1] eqn:Hc; cbn [snd] in Hst; subst s1.
    + rewrite Hpipe by auto. cbn. eauto 10.
    + cbn. split; [eauto|]. repeat split; try done.
      intros [H|H]; done.
  - unfold start_state. rewrite Hpipe by done. cbn. eauto 10.
Qed.

Lemma missing_source_aborts_before_provisioning_witness :
  let r := invoke Sample.ROOT "Linux" Sample.environ Sample.subprocess_run
             Sample.check_output
             (Sample.parsed (Some ["srv"; "kshana"]) "main" true "python3")
             Sample.built in
  r.1 = Raise (FileNotFoundError
                 "Provided source path does not exist: /srv/kshana")
  /\ out r.2 = [].
Proof.
  cbn zeta.
  destruct (missing_source_aborts_before_provisioning Sample.ROOT "Linux"
              Sample.environ Sample.subprocess_run Sample.check_output
              (Sample.parsed (Some ["srv"; "kshana"]) "main" true "python3")
              ["srv"; "kshana"] Sample.built eq_refl eq_refl)
    as (_ & Hout & _ & _ & Herr).
  split; [|exact Hout].
  rewrite Herr; [reflexivity|]. right. vm_compute. reflexivity.
Defined.

(** C6 fails as stated: with [--clean], a regular file at [dist] and a
    [--source-path] that does not exist, the run aborts in the clean step,
    with the error of [shutil.rmtree] and not the missing-source error. *)
Lemma missing_source_counterexample :
  let parsed := Sample.parsed (Some ["srv"; "kshana"]) "main" true "python3" in
  source_path parsed = Some ["srv"; "kshana"]
  /\ Fs.lookup ["srv"; "kshana"] Sample.dist_is_file = None
  /\ (invoke Sample.ROOT "Linux" Sample.environ Sample.subprocess_run
        Sample.check_output parsed Sample.dist_is_file).1
     = Raise (NotADirectoryError (DIST_DIR Sample.ROOT))
  /\ (invoke Sample.ROOT "Linux" Sample.environ Sample.subprocess_run
        Sample.check_output parsed Sample.dist_is_file).1
     ≠ Raise (missing_source ["srv"; "kshana"]).
Proof.
  cbn zeta. split; [reflexivity|]. split; [reflexivity|].
  split; [vm_compute; reflexivity | vm_compute; discriminate].
Qed.

(** ** The sibling checkout *)

Lemma local_candidate_sibling base repo dir :
  local_candidate (base ++ [repo; dir]) = base ++ ["kshana"].
Proof.
  unfold local_candidate, Path.parent, Path.child.
  rewrite removelast_app by done. cbn [removelast].
  rewrite removelast_app by done. cbn [removelast]. by rewrite app_nil_r.
Qed.

(** C3.  With the build script in [base/repo/dir], [repo] not itself named
    [kshana], no [--source-path], and a directory [base/kshana]: source
    acquisition sets [args.source_path] to that directory, and whether or
    not a tree was staged before, the staging directory afterwards holds
    the copy of it (without the ignored names) and nothing of what was
    staged; the one thing printed is the copy notice, so nothing is cloned
    and nothing skipped. *)
Theorem sibling_checkout_adopted
    (base : path) (repo dir : string)
    (subprocess_run : list string -> option path ->
                      option (gmap string string) -> node -> exn + node)
    (es : list (string * node)) (s : State) :
  let ROOT := base ++ [repo; dir] in
  repo ≠ "kshana" ->
  source_path (args s) = None ->
  Fs.lookup (base ++ ["kshana"]) (fs s) = Some (Dir es) ->
  Fs.is_dir ROOT (fs s) = true ->
  Fs.dir_or_absent (BACKEND_SRC_DIR ROOT) (fs s) = true ->
  local_candidate ROOT = base ++ ["kshana"]
  /\ exists t',
       ensure_backend_sources ROOT subprocess_run s
       = (Return tt,
          {| args := {| source_path := Some (base ++ ["kshana"]);
                        ref := ref (args s); platform := platform (args s);
                        clean := clean (args s); python := python (args s) |};
             fs := t';
             out := out s ++ [Print (copied_notice (base ++ ["kshana"]))] |})
       /\ Fs.lookup (BACKEND_SRC_DIR ROOT) t' = Some (Fs.prune (Dir es))
       /\ Fs.lookup (base ++ ["kshana"]) t' = Some (Dir es).
Proof.
  cbn zeta. intros Hrepo Hsp Hcand Hroot Hst.
  pose proof (local_candidate_sibling base repo dir) as Hlc.
  split; [exact Hlc|].
  rewrite acquire_adopts; [|done|].
  2:{ unfold Fs.exists_. by rewrite Hlc, Hcand. }
  destruct (copy_replaces (base ++ [repo; dir]) base "kshana" repo []
              [dir; "kshana"] (base ++ ["kshana"]) es
              (adopted (base ++ [repo; dir]) s)) as (t' & Hrun & H1 & H2);
    try done.
  - unfold BACKEND_SRC_DIR, Path.child. by rewrite <- app_assoc.
  - exists t'. rewrite Hlc, Hrun. unfold adopted. cbn [args fs out].
    by rewrite Hlc.
Qed.

Lemma sibling_checkout_adopted_witness :
  let s := Sample.start_at (Sample.parsed None "main" false "python3")
             Sample.with_sibling_staged in
  exists t',
    (ensure_backend_sources Sample.ROOT Sample.subprocess_run s).2
    = {| args := Sample.parsed (Some ["home"; "dev"; "kshana"]) "main" false
                   "python3";
         fs := t';
         out := [Print "✓ Copied backend from /home/dev/kshana"] |}
    /\ Fs.lookup (BACKEND_SRC_DIR Sample.ROOT) t'
       = Some (Dir [("app", Dir [("cli.py", File "def start(): ...")]);
                    ("pyproject.toml", File "[project]")]).
Proof.
  cbn zeta.
  destruct (sibling_checkout_adopted ["home"; "dev"] "kshana-desktop"
              "backend-build" Sample.subprocess_run
              [("app", Dir [("cli.py", File "def start(): ...");
                            ("cli.pyc", File "cached")]);
               (".git", Dir [("HEAD", File "ref: refs/heads/main")]);
               ("pyproject.toml", File "[project]")]
              (Sample.start_at (Sample.parsed None "main" false "python3")
                 Sample.with_sibling_staged))
    as (_ & t' & Hrun & Hst & _).
  - intros H. discriminate H.
  - reflexivity.
  - reflexivity.
  - reflexivity.
  - reflexivity.
  - exists t'. split.
    + change (["home"; "dev"] ++ ["kshana-desktop"; "backend-build"])
        with Sample.ROOT in Hrun. rewrite Hrun. reflexivity.
    + exact Hst.
Defined.

(** ** Clean builds *)

Lemma build_bundle_makes_dirs ROOT environ subprocess_run python_bin suffix s :
  Fs.is_dir ROOT (fs s) = true ->
  Fs.dir_or_absent (DIST_DIR ROOT) (fs s) = true ->
  Fs.dir_or_absent (BUILD_DIR ROOT) (fs s) = true ->
  exists t2,
    build_bundle ROOT environ subprocess_run python_bin suffix s
    = run subprocess_run (bundler_cmd ROOT python_bin suffix) (Some ROOT)
        (Some (bundler_env ROOT environ))
        {| args := args s; fs := t2; out := out s |}
    /\ Fs.is_dir (DIST_DIR ROOT) t2 = true
    /\ Fs.is_dir (BUILD_DIR ROOT) t2 = true
    /\ (Fs.lookup (DIST_DIR ROOT) (fs s) = None ->
        Fs.lookup (DIST_DIR ROOT) t2 = Some (Dir []))
    /\ (Fs.lookup (BUILD_DIR ROOT) (fs s) = None ->
        Fs.lookup (BUILD_DIR ROOT) t2 = Some (Dir [])).
Proof.
  intros Hroot Hd Hb.
  destruct (mkdir_p_child ROOT "dist" s Hroot Hd)
    as (t1 & Hrun1 & Hd1 & Hroot1 & Hframe1 & Hnew1).
  set (s1 := {| args := args s; fs := t1; out := out s |}) in *.
  assert (Hb1 : Fs.lookup (BUILD_DIR ROOT) t1 = Fs.lookup (BUILD_DIR ROOT) (fs s)).
  { unfold BUILD_DIR, Path.child. by apply Hframe1. }
  destruct (mkdir_p_child ROOT "build-artifacts" s1 Hroot1)
    as (t2 & Hrun2 & Hb2 & _ & Hframe2 & Hnew2).
  { unfold Fs.dir_or_absent in *. cbn [fs s1]. fold (BUILD_DIR ROOT).
    by rewrite Hb1. }
  assert (Hd2 : Fs.lookup (DIST_DIR ROOT) t2 = Fs.lookup (DIST_DIR ROOT) t1).
  { unfold DIST_DIR, Path.child. by apply Hframe2. }
  exists t2. split.
  { unfold build_bundle. unfold mbind at 1. unfold M_bind at 1.
    fold (DIST_DIR ROOT) in Hrun1. rewrite Hrun1.
    unfold mbind at 1. unfold M_bind at 1.
    fold (BUILD_DIR ROOT) in Hrun2. fold s1. by rewrite Hrun2. }
  split.
  { unfold Fs.is_dir in *. fold (DIST_DIR ROOT) in Hd1. by rewrite Hd2. }
  split; [done|]. split.
  - intros Hn. rewrite Hd2. by apply Hnew1.
  - intros Hn. apply Hnew2. cbn [fs s1]. fold (BUILD_DIR ROOT). by rewrite Hb1.
Qed.

(** The pipeline, once source acquisition and provisioning have
    returned: what is left is the build step and the closing notice. *)
Lemma pipeline_reaches_build ROOT host environ subprocess_run check_output
    s sa python_bin s2 :
  ensure_backend_sources ROOT subprocess_run s = (Return tt, sa) ->
  ensure_venv ROOT host subprocess_run check_output (python (args sa)) sa
  = (Return python_bin, s2) ->
  pipeline ROOT host environ subprocess_run check_output s
  = (build_bundle ROOT environ subprocess_run python_bin
       (compute_output_name host (args s2));;
     print success_notice) s2.
Proof.
  intros Hacq Hvenv. unfold pipeline.
  unfold mbind at 1. unfold M_bind at 1. rewrite Hacq.
  unfold mbind at 1. unfold M_bind at 1. unfold get_args at 1.
  unfold mbind at 1. unfold M_bind at 1. rewrite Hvenv.
  unfold mbind at 1. unfold M_bind at 1. unfold get_args at 1.
  reflexivity.
Qed.

(** C9.  An invocation with [--clean], on an output directory and an
    intermediate-artifacts directory that are each a directory or absent:
    the clean step returns and leaves neither of them (it changes nothing
    when neither existed), and the three stages run from there.  Whenever
    source acquisition and provisioning then return, with the script
    directory in place and no regular file where the two directories go,
    what is left of that invocation is the bundler, started on a file
    system where both directories exist, new and empty where they were
    still absent, and the closing notice. *)
Theorem clean_removes_then_build_recreates
    (ROOT : path) (host : string) (environ : gmap string string)
    (subprocess_run : list string -> option path ->
                      option (gmap string string) -> node -> exn + node)
    (check_output : list string -> node -> exn + string)
    (parsed : Namespace) (t : node) :
  clean parsed = true ->
  Fs.dir_or_absent (DIST_DIR ROOT) t = true ->
  Fs.dir_or_absent (BUILD_DIR ROOT) t = true ->
  exists t1,
    clean_previous_outputs ROOT (start_state parsed t)
    = (Return tt, start_state parsed t1)
    /\ Fs.lookup (DIST_DIR ROOT) t1 = None
    /\ Fs.lookup (BUILD_DIR ROOT) t1 = None
    /\ (Fs.lookup (DIST_DIR ROOT) t = None ->
        Fs.lookup (BUILD_DIR ROOT) t = None -> t1 = t)
    /\ invoke ROOT host environ subprocess_run check_output parsed t
       = pipeline ROOT host environ subprocess_run check_output
           (start_state parsed t1)
    /\ (forall sa python_bin s2,
          ensure_backend_sources ROOT subprocess_run (start_state parsed t1)
          = (Return tt, sa) ->
          ensure_venv ROOT host subprocess_run check_output
            (python (args sa)) sa
          = (Return python_bin, s2) ->
          Fs.is_dir ROOT (fs s2) = true ->
          Fs.dir_or_absent (DIST_DIR ROOT) (fs s2) = true ->
          Fs.dir_or_absent (BUILD_DIR ROOT) (fs s2) = true ->
          exists t2,
            invoke ROOT host environ subprocess_run check_output parsed t
            = (run subprocess_run
                 (bundler_cmd ROOT python_bin
                    (compute_output_name host (args s2)))
                 (Some ROOT) (Some (bundler_env ROOT environ));;
               print success_notice)
                {| args := args s2; fs := t2; out := out s2 |}
            /\ Fs.is_dir (DIST_DIR ROOT) t2 = true
            /\ Fs.is_dir (BUILD_DIR ROOT) t2 = true
            /\ (Fs.lookup (DIST_DIR ROOT) (fs s2) = None ->
                Fs.lookup (DIST_DIR ROOT) t2 = Some (Dir []))
            /\ (Fs.lookup (BUILD_DIR ROOT) (fs s2) = None ->
                Fs.lookup (BUILD_DIR ROOT) t2 = Some (Dir []))).
Proof.
  intros Hclean Hd Hb.
  destruct (clean_removes ROOT (start_state parsed t) Hd Hb)
    as (t1 & Hrun & H1 & H2 & H3).
  cbn [args fs out start_state] in Hrun. fold (start_state parsed t1) in Hrun.
  assert (Hinv :
    invoke ROOT host environ subprocess_run check_output parsed t
    = pipeline ROOT host environ subprocess_run check_output
        (start_state parsed t1)).
  { unfold invoke. fold (start_state parsed t). rewrite main_run.
    cbn [args start_state]. rewrite Hclean.
    fold (start_state parsed t). by rewrite Hrun. }
  exists t1. split; [exact Hrun|]. split; [exact H1|]. split; [exact H2|].
  split; [exact H3|]. split; [exact Hinv|].
  intros sa python_bin s2 Hacq Hvenv Hroot Hd2 Hb2.
  destruct (build_bundle_makes_dirs ROOT environ subprocess_run python_bin
              (compute_output_name host (args s2)) s2 Hroot Hd2 Hb2)
    as (t2 & Hbuild & Hrest).
  exists t2. split; [|exact Hrest].
  rewrite Hinv.
  rewrite (pipeline_reaches_build _ _ _ _ _ _ sa python_bin s2) by done.
  unfold mbind at 1. unfold M_bind at 1. rewrite Hbuild.
  reflexivity.
Qed.

Lemma clean_removes_then_build_recreates_witness :
  let parsed := Sample.parsed None "main" true "python3" in
  exists t1 t2,
    Fs.lookup (DIST_DIR Sample.ROOT) t1 = None
    /\ Fs.lookup (BUILD_DIR Sample.ROOT) t1 = None
    /\ Fs.lookup (DIST_DIR Sample.ROOT) t2 = Some (Dir [])
    /\ Fs.lookup (BUILD_DIR Sample.ROOT) t2 = Some (Dir [])
    /\ exists python_bin s2,
         invoke Sample.ROOT "Linux" Sample.environ Sample.subprocess_run
           Sample.check_output parsed Sample.built
         = (run Sample.subprocess_run
              (bundler_cmd Sample.ROOT python_bin "linux")
              (Some Sample.ROOT)
              (Some (bundler_env Sample.ROOT Sample.environ));;
            print success_notice)
             {| args := args s2; fs := t2; out := out s2 |}.
Proof.
  cbn zeta.
  destruct (clean_removes_then_build_recreates Sample.ROOT "Linux"
              Sample.environ Sample.subprocess_run Sample.check_output
              (Sample.parsed None "main" true "python3") Sample.built
              eq_refl eq_refl eq_refl)
    as (t1 & Hclean & H1 & H2 & _ & _ & Hbuild).
  vm_compute in Hclean. injection Hclean as <-.
  destruct (Hbuild
              (ensure_backend_sources Sample.ROOT Sample.subprocess_run
                 (start_state (Sample.parsed None "main" true "python3")
                    Sample.fresh)).2
              (python_bin_path Sample.ROOT "Linux")
              (ensure_venv Sample.ROOT "Linux" Sample.subprocess_run
                 Sample.check_output "python3"
                 (ensure_backend_sources Sample.ROOT Sample.subprocess_run
                    (start_state (Sample.parsed None "main" true "python3")
                       Sample.fresh)).2).2)
    as (t2 & Hinv & _ & _ & Hd & Hb).
  - vm_compute. reflexivity.
  - vm_compute. reflexivity.
  - vm_compute. reflexivity.
  - vm_compute. reflexivity.
  - vm_compute. reflexivity.
  - eexists _, t2. split; [exact H1|]. split; [exact H2|].
    split; [apply Hd; vm_compute; reflexivity|].
    split; [apply Hb; vm_compute; reflexivity|].
    eexists _, _. exact Hinv.
Defined.

(** * Further properties of [build.py] *)

(** ** The version check *)

Lemma ensure_python_version_run check_output python_cmd s :
  ensure_python_version check_output python_cmd s =
  let s1 := {| args := args s; fs := fs s;
               out := out s ++ [Probe (version_probe python_cmd)] |} in
  match check_output (version_probe python_cmd) (fs s) with
  | inl e => (Raise e, s1)
  | inr text =>
      match PyStr.int <$> PyStr.split "." (PyStr.strip text) with
      | [Some major; Some minor; Some patch] =>
          if pair_ltb (major, minor) (3, 10)
          then (Raise (RuntimeError
                         (version_message python_cmd (PyStr.strip text))), s1)
          else (Return tt, s1)
      | _ => (Raise ValueError, s1)
      end
  end.
Proof.
  unfold ensure_python_version, mbind, M_bind, emit, get_fs. cbn [fs].
  destruct (check_output (version_probe python_cmd) (fs s)) as [e|text]; [done|].
  cbn zeta.
  repeat (case_match; try done).
Qed.

(** X1.  An interpreter that reports [major.minor.patch] with
    [(major, minor)] at or above [(3, 10)] passes the version check: this
    holds for 3.10 and later and for every later major version whatever its
    minor; the check starts nothing and changes neither the file system nor
    the configuration. *)
Theorem new_interpreter_accepted
    (check_output : list string -> node -> exn + string)
    (python_cmd text : string) (major minor patch : Z) (s : State) :
  check_output (version_probe python_cmd) (fs s) = inr text ->
  PyStr.int <$> PyStr.split "." (PyStr.strip text)
  = [Some major; Some minor; Some patch] ->
  3 < major \/ (major = 3 /\ 10 <= minor) ->
  ensure_python_version check_output python_cmd s
  = (Return tt, {| args := args s; fs := fs s;
                   out := out s ++ [Probe (version_probe python_cmd)] |}).
Proof.
  intros Hprobe Hparse Hge. rewrite ensure_python_version_run. cbn zeta.
  rewrite Hprobe, Hparse.
  assert (Hb : pair_ltb (major, minor) (3, 10) = false).
  { unfold pair_ltb. cbn [fst snd]. destruct Hge as [H|[-> H]].
    - assert ((major <? 3) = false) as -> by lia.
      assert ((major =? 3) = false) as -> by lia. done.
    - assert ((minor <? 10) = false) as -> by lia. done. }
  by rewrite Hb.
Qed.

Lemma new_interpreter_accepted_witness :
  ensure_python_version (fun _ _ => inr "4.0.2") "python4"
    (Sample.start_at (Sample.parsed None "main" false "python4") Sample.fresh)
  = (Return tt,
     {| args := Sample.parsed None "main" false "python4"; fs := Sample.fresh;
        out := [Probe (version_probe "python4")] |}).
Proof.
  apply (new_interpreter_accepted (fun _ _ => inr "4.0.2") "python4" "4.0.2"
           4 0 2
           (Sample.start_at (Sample.parsed None "main" false "python4")
              Sample.fresh)).
  - reflexivity.
  - reflexivity.
  - left. lia.
Defined.

(** X2.  When the interpreter's answer to the version probe is ASCII text
    that is not exactly three dot-separated integers (another number of
    fields, or a field that [int] rejects), provisioning stops with
    [ValueError], not with the version message; nothing was started and the
    file system is unchanged. *)
Theorem malformed_version_is_value_error
    (ROOT : path) (host : string)
    (subprocess_run : list string -> option path ->
                      option (gmap string string) -> node -> exn + node)
    (check_output : list string -> node -> exn + string)
    (python_cmd text : string) (s : State) :
  check_output (version_probe python_cmd) (fs s) = inr text ->
  PyStr.isascii text = true ->
  length (PyStr.split "." (PyStr.strip text)) ≠ 3%nat
  \/ (exists part, part ∈ PyStr.split "." (PyStr.strip text)
                   /\ PyStr.int part = None) ->
  ensure_venv ROOT host subprocess_run check_output python_cmd s
  = (Raise ValueError,
     {| args := args s; fs := fs s;
        out := out s ++ [Probe (version_probe python_cmd)] |}).
Proof.
  intros Hprobe _ Hbad. unfold ensure_venv. unfold mbind at 1. unfold M_bind at 1.
  rewrite ensure_python_version_run. cbn zeta. rewrite Hprobe.
  destruct (PyStr.int <$> PyStr.split "." (PyStr.strip text))
    as [|[a|] [|[b|] [|[c|] [|x l]]]] eqn:Hparse; try done.
  exfalso. destruct Hbad as [Hlen|(part & Hin & Hnone)].
  - apply Hlen. by rewrite <- (length_fmap PyStr.int), Hparse.
  - assert (Hm : PyStr.int part ∈ PyStr.int <$> PyStr.split "." (PyStr.strip text))
      by (by apply list_elem_of_fmap_2).
    rewrite Hparse, Hnone in Hm.
    repeat (apply elem_of_cons in Hm as [Hm|Hm]; [done|]).
    by apply elem_of_nil in Hm.
Qed.

Lemma malformed_version_is_value_error_witness :
  (ensure_venv Sample.ROOT "Linux" Sample.subprocess_run
     (fun _ _ => inr "3.12.0rc1") "python3"
     (Sample.start_at (Sample.parsed None "main" false "python3") Sample.fresh)).1
  = Raise ValueError
  /\ (ensure_venv Sample.ROOT "Linux" Sample.subprocess_run
        (fun _ _ => inr "3.12") "python3"
        (Sample.start_at (Sample.parsed None "main" false "python3")
           Sample.fresh)).1
     = Raise ValueError.
Proof.
  split.
  - rewrite (malformed_version_is_value_error Sample.ROOT "Linux"
               Sample.subprocess_run (fun _ _ => inr "3.12.0rc1") "python3"
               "3.12.0rc1"); [reflexivity | reflexivity | reflexivity |].
    right. exists "0rc1". split; [|reflexivity].
    vm_compute. do 2 apply list_elem_of_further. apply list_elem_of_here.
  - rewrite (malformed_version_is_value_error Sample.ROOT "Linux"
               Sample.subprocess_run (fun _ _ => inr "3.12") "python3"
               "3.12"); [reflexivity | reflexivity | reflexivity |].
    left. vm_compute. lia.
Defined.

(** ** Provisioning *)


Lemma ensure_python_version_state check_output python_cmd s :
  (ensure_python_version check_output python_cmd s).2
  = {| args := args s; fs := fs s;
       out := out s ++ [Probe (version_probe python_cmd)] |}.
Proof.
  rewrite ensure_python_version_run. cbn zeta.
  repeat (case_match; try done).
Qed.



(** ** The clean step *)

(** X4.  Whether it succeeds or fails, the clean step prints nothing,
    leaves the configuration alone, creates nothing, and changes nothing
    under the script's directory other than [dist] and [build-artifacts]:
    the staged sources, the environment and the spec file are as they
    were. *)
Theorem clean_touches_outputs_only (ROOT : path) (s : State) :
  let s' := (clean_previous_outputs ROOT s).2 in
  out s' = out s
  /\ args s' = args s
  /\ (forall q, Fs.lookup q (fs s) = None -> Fs.lookup q (fs s') = None)
  /\ (forall c p, c ≠ "dist" -> c ≠ "build-artifacts" ->
        Fs.lookup (ROOT ++ c :: p) (fs s') = Fs.lookup (ROOT ++ c :: p) (fs s))
  /\ Fs.lookup (BACKEND_SRC_DIR ROOT) (fs s')
     = Fs.lookup (BACKEND_SRC_DIR ROOT) (fs s)
  /\ Fs.lookup (VENV_PATH ROOT) (fs s') = Fs.lookup (VENV_PATH ROOT) (fs s)
  /\ Fs.lookup (SPEC_PATH ROOT) (fs s') = Fs.lookup (SPEC_PATH ROOT) (fs s).
Proof.
  cbn zeta. destruct (clean_run ROOT s) as (t' & -> & Hmono & Hframe).
  cbn [out args fs]. split; [done|]. split; [done|]. split; [done|].
  split; [done|].
  unfold BACKEND_SRC_DIR, VENV_PATH, SPEC_PATH, Path.child.
  split; [|split]; by apply Hframe.
Qed.

(** X5.  The clean step does not roll back.  A regular file at [dist]
    makes it raise [NotADirectoryError] before it looks at
    [build-artifacts]; with a directory at [dist] and a regular file at
    [build-artifacts] it raises for the latter after [dist] is gone. *)
Theorem clean_fails_on_files (ROOT : path) (s : State) :
  (forall c, Fs.lookup (DIST_DIR ROOT) (fs s) = Some (File c) ->
     clean_previous_outputs ROOT s
     = (Raise (NotADirectoryError (DIST_DIR ROOT)), s))
  /\ (forall es c,
        Fs.lookup (DIST_DIR ROOT) (fs s) = Some (Dir es) ->
        Fs.lookup (BUILD_DIR ROOT) (fs s) = Some (File c) ->
        clean_previous_outputs ROOT s
        = (Raise (NotADirectoryError (BUILD_DIR ROOT)),
           {| args := args s; fs := Fs.remove (DIST_DIR ROOT) (fs s);
              out := out s |})
        /\ Fs.lookup (DIST_DIR ROOT) (Fs.remove (DIST_DIR ROOT) (fs s)) = None).
Proof.
  split.
  - intros c Hd. unfold clean_previous_outputs, mbind, M_bind.
    rewrite path_exists_run. unfold Fs.exists_. rewrite Hd.
    unfold rmtree, mbind, M_bind, get_fs. by rewrite Hd.
  - intros es c Hd Hb.
    assert (Hb' : Fs.lookup (BUILD_DIR ROOT) (Fs.remove (DIST_DIR ROOT) (fs s))
                  = Some (File c)).
    { rewrite <- Hb. unfold BUILD_DIR, DIST_DIR, Path.child.
      by apply FsFacts.lookup_remove_diverge. }
    split.
    + unfold clean_previous_outputs, mbind, M_bind.
      rewrite path_exists_run. unfold Fs.exists_. rewrite Hd.
      rewrite (rmtree_dir _ es) by done. rewrite path_exists_run. cbn [fs].
      unfold Fs.exists_. rewrite Hb'. unfold rmtree, mbind, M_bind, get_fs.
      cbn [fs]. by rewrite Hb'.
    + apply FsFacts.lookup_remove_same. unfold DIST_DIR, Path.child.
      by destruct ROOT.
Qed.

Lemma clean_fails_on_files_witness :
  clean_previous_outputs Sample.ROOT
    (Sample.start_at (Sample.parsed None "main" true "python3")
       Sample.dist_is_file)
  = (Raise (NotADirectoryError (DIST_DIR Sample.ROOT)),
     Sample.start_at (Sample.parsed None "main" true "python3")
       Sample.dist_is_file).
Proof.
  apply (proj1 (clean_fails_on_files Sample.ROOT
                  (Sample.start_at (Sample.parsed None "main" true "python3")
                     Sample.dist_is_file)) "stale").
  reflexivity.
Defined.

(** X6.  Cleaning is idempotent: after a clean step that succeeded, a
    second one succeeds and changes nothing. *)
Theorem clean_twice (ROOT : path) (s : State) :
  Fs.dir_or_absent (DIST_DIR ROOT) (fs s) = true ->
  Fs.dir_or_absent (BUILD_DIR ROOT) (fs s) = true ->
  let s1 := (clean_previous_outputs ROOT s).2 in
  (clean_previous_outputs ROOT s).1 = Return tt
  /\ clean_previous_outputs ROOT s1 = (Return tt, s1).
Proof.
  intros Hd Hb. cbn zeta.
  destruct (clean_removes ROOT s Hd Hb) as (t1 & Hrun & H1 & H2 & _).
  rewrite Hrun. cbn [fst snd]. split; [done|].
  set (s1 := {| args := args s; fs := t1; out := out s |}).
  destruct (clean_removes ROOT s1) as (t2 & Hrun2 & _ & _ & Hsame).
  - unfold Fs.dir_or_absent. cbn [fs s1]. by rewrite H1.
  - unfold Fs.dir_or_absent. cbn [fs s1]. by rewrite H2.
  - rewrite Hrun2. by rewrite (Hsame H1 H2).
Qed.

Lemma clean_twice_witness :
  let s1 := (clean_previous_outputs Sample.ROOT
               (Sample.start_at (Sample.parsed None "main" true "python3")
                  Sample.built)).2 in
  clean_previous_outputs Sample.ROOT s1 = (Return tt, s1).
Proof.
  cbn zeta.
  exact (proj2 (clean_twice Sample.ROOT
                  (Sample.start_at (Sample.parsed None "main" true "python3")
                     Sample.built) eq_refl eq_refl)).
Defined.

(** ** The output name *)

(** X7.  For every value [--platform] accepts, on every host, the output
    suffix is one of [mac], [win] and [linux]. *)
Theorem output_name_in_three (host : string) (a : Namespace) :
  platform a ∈ platform_choices ->
  compute_output_name host a ∈ ["mac"; "win"; "linux"].
Proof.
  unfold platform_choices, compute_output_name. intros Hp.
  repeat (apply elem_of_cons in Hp as [->|Hp]);
    [| | | | by apply elem_of_nil in Hp]; cbn [String.eqb negb]; cbn.
  - repeat case_match; set_solver.
  - set_solver.
  - set_solver.
  - set_solver.
Qed.

Lemma output_name_in_three_witness :
  compute_output_name "SunOS" (Sample.for_platform "auto")
  ∈ ["mac"; "win"; "linux"].
Proof.
  apply (output_name_in_three "SunOS" (Sample.for_platform "auto")).
  apply list_elem_of_here.
Defined.

(** ** The build step *)

(** X8.  The build step never starts the bundler over a regular file: with
    one at [dist] it raises [FileExistsError] at once and changes nothing;
    with one at [build-artifacts] it raises for it after having made
    [dist], and has printed and started nothing. *)
Theorem build_refuses_files
    (ROOT : path) (environ : gmap string string)
    (subprocess_run : list string -> option path ->
                      option (gmap string string) -> node -> exn + node)
    (python_bin : path) (suffix : string) (s : State) :
  (forall c, Fs.lookup (DIST_DIR ROOT) (fs s) = Some (File c) ->
     build_bundle ROOT environ subprocess_run python_bin suffix s
     = (Raise (FileExistsError (DIST_DIR ROOT)), s))
  /\ (forall c,
        Fs.is_dir ROOT (fs s) = true ->
        Fs.dir_or_absent (DIST_DIR ROOT) (fs s) = true ->
        Fs.lookup (BUILD_DIR ROOT) (fs s) = Some (File c) ->
        let r := build_bundle ROOT environ subprocess_run python_bin suffix s in
        r.1 = Raise (FileExistsError (BUILD_DIR ROOT))
        /\ out r.2 = out s
        /\ Fs.is_dir (DIST_DIR ROOT) (fs r.2) = true).
Proof.
  split.
  - intros c Hd. unfold build_bundle. unfold mbind at 1. unfold M_bind at 1.
    unfold mkdir_p at 1. unfold mbind at 1. unfold M_bind at 1.
    unfold get_fs at 1. by rewrite Hd.
  - intros c Hroot Hd Hb. cbn zeta.
    destruct (mkdir_p_child ROOT "dist" s Hroot Hd)
      as (t1 & Hrun1 & Hd1 & _ & Hframe1 & _).
    fold (DIST_DIR ROOT) in Hrun1, Hd1.
    assert (Hb1 : Fs.lookup (BUILD_DIR ROOT) t1 = Some (File c)).
    { rewrite <- Hb. unfold BUILD_DIR, Path.child. by apply Hframe1. }
    assert (Hrun :
      build_bundle ROOT environ subprocess_run python_bin suffix s
      = (Raise (FileExistsError (BUILD_DIR ROOT)),
         {| args := args s; fs := t1; out := out s |})).
    { unfold build_bundle. unfold mbind at 1. unfold M_bind at 1.
      rewrite Hrun1. unfold mbind at 1. unfold M_bind at 1.
      unfold mkdir_p, mbind, M_bind, get_fs. cbn [fs]. by rewrite Hb1. }
    by rewrite Hrun.
Qed.

Lemma build_refuses_files_witness :
  build_bundle Sample.ROOT Sample.environ Sample.subprocess_run
    (python_bin_path Sample.ROOT "Linux") "linux"
    (Sample.start_at (Sample.parsed None "main" false "python3")
       Sample.dist_is_file)
  = (Raise (FileExistsError (DIST_DIR Sample.ROOT)),
     Sample.start_at (Sample.parsed None "main" false "python3")
       Sample.dist_is_file).
Proof.
  apply (proj1 (build_refuses_files Sample.ROOT Sample.environ
                  Sample.subprocess_run (python_bin_path Sample.ROOT "Linux")
                  "linux"
                  (Sample.start_at (Sample.parsed None "main" false "python3")
                     Sample.dist_is_file)) "stale").
  reflexivity.
Defined.

(** X9.  With the script's directory in place and no regular file in the
    way, the build step prints one command line and starts one process,
    the bundler, in the script's directory; the environment it gives it is
    [os.environ] with [PYTHONPATH] replaced by the staging directory,
    whatever [PYTHONPATH] was, and every other variable as inherited. *)
Theorem bundler_environment
    (ROOT : path) (environ : gmap string string)
    (subprocess_run : list string -> option path ->
                      option (gmap string string) -> node -> exn + node)
    (python_bin : path) (suffix : string) (s : State) :
  Fs.is_dir ROOT (fs s) = true ->
  Fs.dir_or_absent (DIST_DIR ROOT) (fs s) = true ->
  Fs.dir_or_absent (BUILD_DIR ROOT) (fs s) = true ->
  exists env,
    out (build_bundle ROOT environ subprocess_run python_bin suffix s).2
    = out s ++ [run_line (bundler_cmd ROOT python_bin suffix);
                Spawn (bundler_cmd ROOT python_bin suffix) (Some ROOT)
                  (Some env)]
    /\ env !! "PYTHONPATH" = Some (Path.str (BACKEND_SRC_DIR ROOT))
    /\ (forall k, k ≠ "PYTHONPATH" -> env !! k = environ !! k).
Proof.
  intros Hroot Hd Hb.
  destruct (build_bundle_makes_dirs ROOT environ subprocess_run python_bin
              suffix s Hroot Hd Hb) as (t2 & Hrun & _).
  exists (bundler_env ROOT environ). rewrite Hrun, run_run. cbn zeta.
  cbn [fs out args]. split.
  - by destruct (subprocess_run _ _ _ t2).
  - unfold bundler_env. split.
    + apply lookup_insert_eq.
    + intros k Hk. by apply lookup_insert_ne.
Qed.

Lemma bundler_environment_witness :
  exists env,
    out (build_bundle Sample.ROOT {["PYTHONPATH" := "/usr/lib/site"]}
           Sample.subprocess_run (python_bin_path Sample.ROOT "Linux") "linux"
           (Sample.start_at (Sample.parsed None "main" false "python3")
              Sample.fresh)).2
    = [run_line (bundler_cmd Sample.ROOT (python_bin_path Sample.ROOT "Linux")
                   "linux");
       Spawn (bundler_cmd Sample.ROOT (python_bin_path Sample.ROOT "Linux")
                "linux") (Some Sample.ROOT) (Some env)]
    /\ env !! "PYTHONPATH"
       = Some "/home/dev/kshana-desktop/backend-build/kshana".
Proof.
  destruct (bundler_environment Sample.ROOT {["PYTHONPATH" := "/usr/lib/site"]}
              Sample.subprocess_run (python_bin_path Sample.ROOT "Linux")
              "linux"
              (Sample.start_at (Sample.parsed None "main" false "python3")
                 Sample.fresh) eq_refl eq_refl eq_refl)
    as (env & Hout & Hpp & _).
  exists env. split; [exact Hout | exact Hpp].
Defined.

(** ** How a run ends *)

Lemma bundlers_snoc tr e :
  bundlers (tr ++ [e]) = (bundlers tr + if is_bundler e then 1 else 0)%nat.
Proof.
  unfold bundlers. rewrite List.filter_app, length_app. cbn.
  by destruct (is_bundler e).
Qed.

Lemma successes_snoc tr e :
  successes (tr ++ [e]) = (successes tr + if is_success e then 1 else 0)%nat.
Proof.
  unfold successes. rewrite List.filter_app, length_app. cbn.
  by destruct (is_success e).
Qed.

#[global] Instance outcome_kept_frame :
  Frame outcome_kept (fun e => is_bundler e = false /\ is_success e = false).
Proof.
  split.
  - split; [by intros s|].
    intros s1 s2 s3 [H1 H1'] [H2 H2']. split; congruence.
  - by intros s t.
  - intros s e [Hb Hs]. unfold outcome_kept. cbn [out].
    rewrite bundlers_snoc, successes_snoc, Hb, Hs. lia.
Qed.

Section Outcome.
Variable ROOT : path.
Variable host_system : string.
Variable environ : gmap string string.
Variable subprocess_run :
  list string -> option path -> option (gmap string string) -> node ->
  exn + node.
Variable check_output : list string -> node -> exn + string.

Local Abbreviation quiet :=
  (fun e => is_bundler e = false /\ is_success e = false).

Lemma quiet_run_line cmd : quiet (run_line cmd).
Proof. done. Qed.

Lemma stable_quiet_run cmd cwd env :
  is_bundler_cmd cmd = false ->
  stable outcome_kept (run subprocess_run cmd cwd env).
Proof.
  intros Hcmd. unfold run.
  apply (stable_bind outcome_kept quiet).
  - apply (stable_emit outcome_kept quiet). apply quiet_run_line.
  - intros _. by apply (stable_spawn outcome_kept quiet).
Qed.

Lemma stable_quiet_set_source_path p :
  stable outcome_kept (set_source_path p).
Proof. by intros s. Qed.

Lemma stable_quiet_copy sp : stable outcome_kept (copy_sources ROOT sp).
Proof.
  unfold copy_sources.
  apply (stable_bind _ quiet); [apply (stable_path_exists _ quiet) | intros found].
  apply stable_if; [apply (stable_raise _ quiet)|].
  apply (stable_bind _ quiet); [apply (stable_path_exists _ quiet) | intros staged].
  apply (stable_bind _ quiet).
  { apply stable_if; [apply (stable_rmtree _ quiet) | apply (stable_ret _ quiet)]. }
  intros _. apply (stable_bind _ quiet); [apply (stable_copytree _ quiet) | intros _].
  by apply (stable_emit _ quiet).
Qed.

Lemma stable_quiet_clone a :
  stable outcome_kept (clone_sources ROOT subprocess_run a).
Proof.
  unfold clone_sources.
  apply (stable_bind _ quiet); [apply (stable_path_exists _ quiet) | intros staged].
  apply stable_if; [by apply (stable_emit _ quiet)|].
  apply (stable_bind _ quiet); [by apply stable_quiet_run | intros _].
  apply stable_if; [by apply stable_quiet_run | apply (stable_ret _ quiet)].
Qed.

Lemma stable_quiet_acquire :
  stable outcome_kept (ensure_backend_sources ROOT subprocess_run).
Proof.
  unfold ensure_backend_sources.
  apply (stable_bind _ quiet); [apply (stable_get_args _ quiet) | intros a].
  apply (stable_bind _ quiet).
  { destruct (source_path a); [apply (stable_ret _ quiet)|].
    apply (stable_bind _ quiet); [apply (stable_path_exists _ quiet) | intros f].
    apply stable_if; [apply stable_quiet_set_source_path | apply (stable_ret _ quiet)]. }
  intros _. apply (stable_bind _ quiet); [apply (stable_get_args _ quiet) | intros a'].
  destruct (source_path a'); [apply stable_quiet_copy | apply stable_quiet_clone].
Qed.

Lemma stable_quiet_version python_cmd :
  stable outcome_kept (ensure_python_version check_output python_cmd).
Proof.
  intros s. rewrite ensure_python_version_state. unfold outcome_kept. cbn [out].
  by rewrite bundlers_snoc, successes_snoc, !Nat.add_0_r.
Qed.

Lemma stable_quiet_provision python_cmd :
  stable outcome_kept
    (ensure_venv ROOT host_system subprocess_run check_output python_cmd).
Proof.
  unfold ensure_venv.
  apply (stable_bind _ quiet); [apply stable_quiet_version | intros _].
  apply (stable_bind _ quiet); [apply (stable_path_exists _ quiet) | intros present].
  apply (stable_bind _ quiet).
  { apply stable_if; [apply (stable_ret _ quiet) | by apply stable_quiet_run]. }
  intros _. apply (stable_bind _ quiet); [by apply stable_quiet_run | intros _].
  apply (stable_bind _ quiet); [by apply stable_quiet_run | intros _].
  apply (stable_ret _ quiet).
Qed.

(** A stage that keeps the two counts may come first. *)
Lemma report_bind {A} (m : M A) (f : A -> M unit) s :
  stable outcome_kept m ->
  (forall a s1,
     run_report (bundlers (out s1)) (successes (out s1)) (f a s1)) ->
  run_report (bundlers (out s)) (successes (out s)) ((m ≫= f) s).
Proof.
  intros Hm Hf. unfold mbind, M_bind. destruct (Hm s) as [Hb Hn].
  destruct (m s) as [[a|e] s1]; cbn [snd] in Hb, Hn.
  - rewrite <- Hb, <- Hn. apply Hf.
  - unfold run_report. cbn [fst snd]. rewrite Hb, Hn. split; [done | lia].
Qed.

Lemma report_build python_bin suffix s :
  run_report (bundlers (out s)) (successes (out s))
    ((build_bundle ROOT environ subprocess_run python_bin suffix
      ≫= fun _ => print success_notice) s).
Proof.
  unfold build_bundle.
  assert (Hassoc : forall (m1 m2 m3 m4 : M unit) x,
    (((m1 ≫= fun _ => m2 ≫= fun _ => m3) ≫= fun _ => m4) x)
    = ((m1 ≫= fun _ => m2 ≫= fun _ => m3 ≫= fun _ => m4) x)).
  { intros m1 m2 m3 m4 x. unfold mbind, M_bind.
    destruct (m1 x) as [[[]|e1] x1]; [|done].
    by destruct (m2 x1) as [[[]|e2] x2]. }
  rewrite Hassoc.
  apply report_bind; [apply (stable_mkdir_p _ quiet) | intros _ s1].
  apply report_bind; [apply (stable_mkdir_p _ quiet) | intros _ s2].
  unfold mbind, M_bind. rewrite run_run. cbn zeta.
  assert (Hcmd : is_bundler_cmd (bundler_cmd ROOT python_bin suffix) = true)
    by done.
  set (cmd := bundler_cmd ROOT python_bin suffix) in *.
  assert (Hb2 : forall tr cwd env,
            bundlers (tr ++ [run_line cmd; Spawn cmd cwd env]) = S (bundlers tr)).
  { intros tr cwd env. change [run_line cmd; Spawn cmd cwd env]
      with ([run_line cmd] ++ [Spawn cmd cwd env]).
    rewrite app_assoc, !bundlers_snoc. cbn [is_bundler run_line].
    rewrite Hcmd. lia. }
  assert (Hn2 : forall tr cwd env,
            successes (tr ++ [run_line cmd; Spawn cmd cwd env]) = successes tr).
  { intros tr cwd env. change [run_line cmd; Spawn cmd cwd env]
      with ([run_line cmd] ++ [Spawn cmd cwd env]).
    rewrite app_assoc, !successes_snoc.
    assert (is_success (run_line cmd) = false) as -> by done.
    cbn [is_success]. lia. }
  destruct (subprocess_run _ _ _ (fs s2)) as [e|t']; unfold run_report;
    cbn [fst snd out print emit].
  - rewrite Hb2, Hn2. split; [done | lia].
  - rewrite last_snoc, bundlers_snoc, successes_snoc, Hb2, Hn2.
    cbn [is_bundler]. assert (is_success (Print success_notice) = true) as ->
      by done.
    split; [lia|]. split; [lia|done].
Qed.

Lemma report_pipeline s :
  run_report (bundlers (out s)) (successes (out s))
    (pipeline ROOT host_system environ subprocess_run check_output s).
Proof.
  unfold pipeline.
  apply report_bind; [apply stable_quiet_acquire | intros _ s1].
  apply report_bind; [apply (stable_get_args _ quiet) | intros a s2].
  apply report_bind; [apply stable_quiet_provision | intros pb s3].
  apply report_bind; [apply (stable_get_args _ quiet) | intros a' s4].
  apply report_build.
Qed.

Lemma report_main s :
  run_report (bundlers (out s)) (successes (out s))
    (main ROOT host_system environ subprocess_run check_output s).
Proof.
  unfold main.
  apply report_bind; [apply (stable_get_args _ quiet) | intros a s1].
  apply report_bind; [|intros _ s2; apply report_pipeline].
  apply stable_if; [apply (stable_clean _ quiet) | apply (stable_ret _ quiet)].
Qed.

End Outcome.

(** X10.  However an invocation goes, it ends in one of two ways.  It
    returns, and then the bundler was started exactly once and the closing
    notice was printed exactly once, as the last thing.  Or it raises, and
    then the closing notice was never printed and the bundler was started
    at most once. *)
Theorem run_ends_in_success_or_silence
    (ROOT : path) (host : string) (environ : gmap string string)
    (subprocess_run : list string -> option path ->
                      option (gmap string string) -> node -> exn + node)
    (check_output : list string -> node -> exn + string)
    (parsed : Namespace) (t : node) :
  let r := invoke ROOT host environ subprocess_run check_output parsed t in
  match r.1 with
  | Return _ =>
      bundlers (out r.2) = 1%nat /\ successes (out r.2) = 1%nat
      /\ last (out r.2) = Some (Print success_notice)
  | Raise _ => successes (out r.2) = 0%nat /\ (bundlers (out r.2) <= 1)%nat
  end.
Proof.
  cbn zeta. unfold invoke.
  exact (report_main ROOT host environ subprocess_run check_output
           {| args := parsed; fs := t; out := [] |}).
Qed.

(** ** Copying from a source path *)

Lemma lookup_app p q t :
  Fs.lookup (p ++ q) t = Fs.lookup p t ≫= Fs.lookup q.
Proof.
  revert t. induction p as [|c p IH]; intros t; [done|].
  destruct t as [x|es]; [done|]. cbn [app Fs.lookup].
  destruct (Fs.entry_get c es); [apply IH | done].
Qed.

Lemma lookup_prune_entry k es :
  Fs.lookup [k] (Fs.prune (Dir es))
  = if Fs.ignored k then None else Fs.prune <$> Fs.entry_get k es.
Proof.
  cbn [Fs.prune Fs.lookup].
  induction es as [|[c n] r IH].
  - cbn. by destruct (Fs.ignored k).
  - cbn [Fs.entry_get]. destruct (Fs.ignored c) eqn:Hc.
    + destruct (String.eqb_spec c k) as [->|Hne]; [by rewrite IH, Hc | exact IH].
    + cbn [Fs.entry_get]. destruct (String.eqb_spec c k) as [->|Hne].
      * by rewrite Hc.
      * exact IH.
Qed.

(** What the copy of a tree holds at each relative path. *)
Lemma lookup_prune q t :
  Fs.lookup q (Fs.prune t)
  = if has_ignored q then None else Fs.prune <$> Fs.lookup q t.
Proof.
  revert t. induction q as [|k q IH]; intros t; [done|].
  destruct t as [x|es].
  - cbn [Fs.prune Fs.lookup]. by destruct (has_ignored (k :: q)).
  - change (k :: q) with ([k] ++ q). rewrite lookup_app, lookup_prune_entry.
    unfold has_ignored. cbn [app existsb]. fold (has_ignored q).
    destruct (Fs.ignored k); [done|]. cbn [orb]. cbn [Fs.lookup].
    destruct (Fs.entry_get k es) as [n|]; cbn; [apply IH|].
    by destruct (has_ignored q).
Qed.

Lemma paths_diverge (l1 l2 : path) :
  ¬ l1 `prefix_of` l2 -> ¬ l2 `prefix_of` l1 ->
  exists r a b p q, l1 = r ++ a :: p /\ l2 = r ++ b :: q /\ a ≠ b.
Proof.
  revert l2. induction l1 as [|x l1 IH]; intros l2 H1 H2.
  - destruct H1. apply prefix_nil.
  - destruct l2 as [|y l2]; [destruct H2; apply prefix_nil|].
    destruct (decide (x = y)) as [->|Hne].
    + destruct (IH l2) as (r & a & b & p & q & -> & -> & Hab).
      * intros H. apply H1. by apply prefix_cons.
      * intros H. apply H2. by apply prefix_cons.
      * by exists (y :: r), a, b, p, q.
    + by exists [], x, y, l1, l2.
Qed.

(** X11.  With [--source-path P], [P] a directory that neither contains
    the staging directory nor lies in it: source acquisition starts no
    command and leaves the configuration and [P] alone; afterwards the
    staging directory holds, at every relative path, what [P] held there,
    except that nothing is there on a path with a component named [.git],
    [__pycache__], [.venv], [dist], [build] or [outputs] or ending in
    [.pyc]; nothing of an earlier staged tree survives. *)
Theorem explicit_source_copied
    (ROOT : path)
    (subprocess_run : list string -> option path ->
                      option (gmap string string) -> node -> exn + node)
    (sp : path) (es : list (string * node)) (s : State) :
  source_path (args s) = Some sp ->
  Fs.lookup sp (fs s) = Some (Dir es) ->
  ¬ sp `prefix_of` BACKEND_SRC_DIR ROOT ->
  ¬ BACKEND_SRC_DIR ROOT `prefix_of` sp ->
  Fs.is_dir ROOT (fs s) = true ->
  Fs.dir_or_absent (BACKEND_SRC_DIR ROOT) (fs s) = true ->
  exists t',
    ensure_backend_sources ROOT subprocess_run s
    = (Return tt, {| args := args s; fs := t';
                     out := out s ++ [Print (copied_notice sp)] |})
    /\ (forall rel,
          Fs.lookup (BACKEND_SRC_DIR ROOT ++ rel) t'
          = if has_ignored rel then None
            else Fs.prune <$> Fs.lookup (sp ++ rel) (fs s))
    /\ Fs.lookup sp t' = Fs.lookup sp (fs s).
Proof.
  intros Hsp Hdir H1 H2 Hroot Hst.
  destruct (paths_diverge _ _ H1 H2) as (r & a & b & p & q & E1 & E2 & Hab).
  rewrite (acquire_explicit _ _ _ sp) by done.
  destruct (copy_replaces ROOT r a b p q sp es s E2 E1 Hab Hdir Hroot Hst)
    as (t' & Hrun & Hl1 & Hl2).
  exists t'. split; [exact Hrun|]. split; [|by rewrite Hl2, Hdir].
  intros rel. rewrite !lookup_app, Hl1, Hdir.
  exact (lookup_prune rel (Dir es)).
Qed.

Lemma explicit_source_copied_witness :
  exists t',
    (ensure_backend_sources Sample.ROOT Sample.subprocess_run
       (Sample.start_at
          (Sample.parsed (Some ["home"; "dev"; "kshana"]) "main" false "python3")
          Sample.with_sibling_staged)).2
    = {| args := Sample.parsed (Some ["home"; "dev"; "kshana"]) "main" false
                   "python3";
         fs := t';
         out := [Print "✓ Copied backend from /home/dev/kshana"] |}
    /\ Fs.lookup (BACKEND_SRC_DIR Sample.ROOT ++ [".git"; "HEAD"]) t' = None
    /\ Fs.lookup (BACKEND_SRC_DIR Sample.ROOT ++ ["app"; "cli.py"]) t'
       = Some (File "def start(): ...")
    /\ Fs.lookup (BACKEND_SRC_DIR Sample.ROOT ++ ["old.py"]) t' = None.
Proof.
  destruct (explicit_source_copied Sample.ROOT Sample.subprocess_run
              ["home"; "dev"; "kshana"]
              [("app", Dir [("cli.py", File "def start(): ...");
                            ("cli.pyc", File "cached")]);
               (".git", Dir [("HEAD", File "ref: refs/heads/main")]);
               ("pyproject.toml", File "[project]")]
              (Sample.start_at
                 (Sample.parsed (Some ["home"; "dev"; "kshana"]) "main" false
                    "python3") Sample.with_sibling_staged))
    as (t' & Hrun & Hrel & _).
  - reflexivity.
  - reflexivity.
  - intros [k Hk]. vm_compute in Hk. discriminate Hk.
  - intros [k Hk]. vm_compute in Hk. discriminate Hk.
  - reflexivity.
  - reflexivity.
  - exists t'. rewrite Hrun. split; [reflexivity|].
    rewrite !Hrel. repeat split; reflexivity.
Defined.

Lemma staging_not_nil ROOT : BACKEND_SRC_DIR ROOT ≠ [].
Proof. unfold BACKEND_SRC_DIR, Path.child. by destruct ROOT. Qed.

Lemma copy_after_rmtree ROOT sp es s :
  Fs.lookup sp (fs s) ≠ None ->
  Fs.lookup (BACKEND_SRC_DIR ROOT) (fs s) = Some (Dir es) ->
  copy_sources ROOT sp s
  = (copytree sp (BACKEND_SRC_DIR ROOT) ≫= fun _ => print (copied_notice sp))
      {| args := args s; fs := Fs.remove (BACKEND_SRC_DIR ROOT) (fs s);
         out := out s |}.
Proof.
  intros Hsp Hst. unfold copy_sources, Path.resolve.
  unfold mbind at 1. unfold M_bind at 1. rewrite path_exists_run.
  unfold Fs.exists_ at 1. destruct (Fs.lookup sp (fs s)); [|done]. cbn [negb].
  unfold mbind at 1. unfold M_bind at 1. rewrite path_exists_run.
  unfold Fs.exists_ at 1. rewrite Hst.
  unfold mbind at 1. unfold M_bind at 1. by rewrite (rmtree_dir _ es).
Qed.

(** X12.  With [--source-path P] where [P] is a regular file outside the
    staging directory, and a tree staged: source acquisition removes the
    staged tree first and only then fails, with [NotADirectoryError] for
    [P]; nothing is staged any more. *)
Theorem source_file_loses_staged_tree
    (ROOT : path)
    (subprocess_run : list string -> option path ->
                      option (gmap string string) -> node -> exn + node)
    (sp : path) (c : string) (es : list (string * node)) (s : State) :
  source_path (args s) = Some sp ->
  Fs.lookup sp (fs s) = Some (File c) ->
  Fs.lookup (BACKEND_SRC_DIR ROOT) (fs s) = Some (Dir es) ->
  ¬ BACKEND_SRC_DIR ROOT `prefix_of` sp ->
  ensure_backend_sources ROOT subprocess_run s
  = (Raise (NotADirectoryError sp),
     {| args := args s; fs := Fs.remove (BACKEND_SRC_DIR ROOT) (fs s);
        out := out s |})
  /\ Fs.lookup (BACKEND_SRC_DIR ROOT)
       (Fs.remove (BACKEND_SRC_DIR ROOT) (fs s)) = None.
Proof.
  intros Hsp Hfile Hst Hout.
  split; [|apply FsFacts.lookup_remove_same, staging_not_nil].
  assert (Hin : ¬ sp `prefix_of` BACKEND_SRC_DIR ROOT).
  { intros [k Hk]. rewrite Hk, lookup_app, Hfile in Hst. by destruct k. }
  destruct (paths_diverge _ _ Hin Hout) as (r & a & b & p & q & E1 & E2 & Hab).
  rewrite (acquire_explicit _ _ _ sp) by done.
  rewrite (copy_after_rmtree _ _ es) by (done || by rewrite Hfile).
  unfold mbind, M_bind, copytree, mbind, M_bind, get_fs. cbn [fs].
  rewrite E2, E1, FsFacts.lookup_remove_diverge by done.
  rewrite <- E1. by rewrite Hfile.
Qed.

Lemma source_file_loses_staged_tree_witness :
  let s := Sample.start_at
             (Sample.parsed
                (Some ["home"; "dev"; "kshana-desktop"; "backend-build";
                       "build.py"]) "main" false "python3")
             Sample.staged_only in
  (ensure_backend_sources Sample.ROOT Sample.subprocess_run s).1
  = Raise (NotADirectoryError
             ["home"; "dev"; "kshana-desktop"; "backend-build"; "build.py"])
  /\ Fs.lookup (BACKEND_SRC_DIR Sample.ROOT)
       (fs (ensure_backend_sources Sample.ROOT Sample.subprocess_run s).2)
     = None.
Proof.
  cbn zeta.
  destruct (source_file_loses_staged_tree Sample.ROOT Sample.subprocess_run
              ["home"; "dev"; "kshana-desktop"; "backend-build"; "build.py"]
              "#!/usr/bin/env python3" [("old.py", File "old")]
              (Sample.start_at
                 (Sample.parsed
                    (Some ["home"; "dev"; "kshana-desktop"; "backend-build";
                           "build.py"]) "main" false "python3")
                 Sample.staged_only)) as [Hrun Hgone].
  - reflexivity.
  - reflexivity.
  - reflexivity.
  - intros [k Hk]. vm_compute in Hk. discriminate Hk.
  - rewrite Hrun. split; [reflexivity | exact Hgone].
Defined.

(** X13.  With [--source-path P] where [P] is the staging directory itself
    or lies inside it: source acquisition removes the staged tree, and [P]
    with it, and then fails with [FileNotFoundError] for [P]; nothing is
    staged any more. *)
Theorem source_inside_staging_is_destroyed
    (ROOT : path)
    (subprocess_run : list string -> option path ->
                      option (gmap string string) -> node -> exn + node)
    (sp : path) (n : node) (es : list (string * node)) (s : State) :
  source_path (args s) = Some sp ->
  BACKEND_SRC_DIR ROOT `prefix_of` sp ->
  Fs.lookup sp (fs s) = Some n ->
  Fs.lookup (BACKEND_SRC_DIR ROOT) (fs s) = Some (Dir es) ->
  ensure_backend_sources ROOT subprocess_run s
  = (Raise (FileNotFoundError (Path.str sp)),
     {| args := args s; fs := Fs.remove (BACKEND_SRC_DIR ROOT) (fs s);
        out := out s |})
  /\ Fs.lookup (BACKEND_SRC_DIR ROOT)
       (Fs.remove (BACKEND_SRC_DIR ROOT) (fs s)) = None.
Proof.
  intros Hsp [k Hk] Hn Hst.
  pose proof (FsFacts.lookup_remove_same _ (fs s) (staging_not_nil ROOT))
    as Hgone.
  split; [|exact Hgone].
  rewrite (acquire_explicit _ _ _ sp) by done.
  rewrite (copy_after_rmtree _ _ es) by (done || by rewrite Hn).
  unfold mbind, M_bind, copytree, mbind, M_bind, get_fs. cbn [fs].
  assert (Hsp' : Fs.lookup sp (Fs.remove (BACKEND_SRC_DIR ROOT) (fs s)) = None)
    by (by rewrite Hk, lookup_app, Hgone).
  by rewrite Hsp'.
Qed.

Lemma source_inside_staging_is_destroyed_witness :
  let s := Sample.start_at
             (Sample.parsed (Some (BACKEND_SRC_DIR Sample.ROOT)) "main" false
                "python3")
             Sample.staged_only in
  (ensure_backend_sources Sample.ROOT Sample.subprocess_run s).1
  = Raise (FileNotFoundError "/home/dev/kshana-desktop/backend-build/kshana")
  /\ Fs.lookup (BACKEND_SRC_DIR Sample.ROOT)
       (fs (ensure_backend_sources Sample.ROOT Sample.subprocess_run s).2)
     = None.
Proof.
  cbn zeta.
  destruct (source_inside_staging_is_destroyed Sample.ROOT
              Sample.subprocess_run (BACKEND_SRC_DIR Sample.ROOT)
              (Dir [("old.py", File "old")]) [("old.py", File "old")]
              (Sample.start_at
                 (Sample.parsed (Some (BACKEND_SRC_DIR Sample.ROOT)) "main"
                    false "python3") Sample.staged_only)) as [Hrun Hgone].
  - reflexivity.
  - by exists [].
  - reflexivity.
  - reflexivity.
  - rewrite Hrun. split; [reflexivity | exact Hgone].
Defined.

(** * Further properties of [entry.py] *)

(** X14.  [_ensure_project_on_path] always returns the backend directory
    beside the wrapper.  When that directory exists its path is on
    [sys.path] afterwards, put in front if it was not there; when it does
    not exist nothing changes.  A second call changes nothing, a
    duplicate-free [sys.path] stays duplicate-free, no entry is ever
    removed, and nothing but [sys.path] is touched. *)
Theorem project_path_inserted_once
    (root_dir : path) (disk : node) (s : Entry.Proc) :
  let backend_src := root_dir // "kshana" in
  let s1 := (Entry._ensure_project_on_path root_dir disk s).2 in
  (Entry._ensure_project_on_path root_dir disk s).1 = Return backend_src
  /\ Entry._ensure_project_on_path root_dir disk s1 = (Return backend_src, s1)
  /\ (Fs.exists_ backend_src disk = true ->
      Path.str backend_src ∈ Entry.sys_path s1)
  /\ (Fs.exists_ backend_src disk = false -> s1 = s)
  /\ (Entry.sys_path s1 = Entry.sys_path s
      \/ ((Path.str backend_src ∉ Entry.sys_path s)
          /\ Entry.sys_path s1 = Path.str backend_src :: Entry.sys_path s))
  /\ (NoDup (Entry.sys_path s) -> NoDup (Entry.sys_path s1))
  /\ Entry.tools s1 = Entry.tools s
  /\ Entry.assigned s1 = Entry.assigned s
  /\ Entry.os_environ s1 = Entry.os_environ s.
Proof.
  cbn zeta. unfold Entry._ensure_project_on_path. cbn [fst snd].
  destruct (Fs.exists_ (root_dir // "kshana") disk) eqn:Hex; cbn [andb].
  - destruct (decide (Path.str (root_dir // "kshana") ∈ Entry.sys_path s))
      as [Hin|Hout].
    + rewrite (bool_decide_eq_true_2 _ Hin). cbn [negb].
      rewrite (bool_decide_eq_true_2 _ Hin). cbn [negb].
      split; [done|]. split; [done|]. split; [done|]. split; [done|].
      split; [by left|]. done.
    + rewrite (bool_decide_eq_false_2 _ Hout). cbn [negb Entry.sys_path].
      assert (Hin' : Path.str (root_dir // "kshana")
                     ∈ Path.str (root_dir // "kshana") :: Entry.sys_path s)
        by apply list_elem_of_here.
      rewrite (bool_decide_eq_true_2 _ Hin'). cbn [negb].
      split; [done|]. split; [done|]. split; [done|]. split; [done|].
      split; [by right|]. split; [|done].
      intros Hnd. by apply NoDup_cons.
  - split; [done|]. split; [done|]. split; [done|]. split; [done|].
    split; [by left|]. done.
Qed.

Lemma project_path_inserted_once_witness :
  let s := SampleProc.proc SampleProc.unpatched SampleProc.operator_env in
  Entry.sys_path (Entry._ensure_project_on_path ["opt"] SampleProc.disk s).2
  = ["/opt/kshana"; "/app"]
  /\ NoDup (Entry.sys_path
              (Entry._ensure_project_on_path ["opt"] SampleProc.disk s).2).
Proof.
  cbn zeta.
  destruct (project_path_inserted_once ["opt"] SampleProc.disk
              (SampleProc.proc SampleProc.unpatched SampleProc.operator_env))
    as (_ & _ & _ & _ & _ & Hnd & _).
  split; [reflexivity|]. apply Hnd.
  apply NoDup_cons. split; [apply not_elem_of_nil | apply NoDup_nil_2].
Defined.

(** X15.  [_load_dotenv] does nothing at all, and does not even import the
    loader, when the backend has no [.env] file.  When it has one: a
    missing [dotenv] module ([ModuleNotFoundError]) is passed over and the
    environment stays as it was, any other [ImportError] is raised, and
    when the import succeeds the environment becomes what the loader made
    of it. *)
Theorem dotenv_loaded_only_with_file
    (disk : node) (project_dir : path) (s : Entry.Proc) :
  (Fs.exists_ (project_dir // ".env") disk = false ->
   forall import_dotenv load_dotenv,
     Entry._load_dotenv disk import_dotenv load_dotenv project_dir s
     = (Return tt, s))
  /\ (Fs.exists_ (project_dir // ".env") disk = true ->
      (forall msg load_dotenv,
         Entry._load_dotenv disk (inl (ModuleNotFoundError msg)) load_dotenv
           project_dir s = (Return tt, s))
      /\ (forall msg load_dotenv,
            Entry._load_dotenv disk (inl (ImportError msg)) load_dotenv
              project_dir s = (Raise (ImportError msg), s))
      /\ (forall o load_dotenv e',
            load_dotenv (project_dir // ".env") disk (Entry.os_environ s)
            = inr e' ->
            Entry._load_dotenv disk (inr o) load_dotenv project_dir s
            = (Return tt,
               {| Entry.tools := Entry.tools s;
                  Entry.assigned := Entry.assigned s;
                  Entry.sys_path := Entry.sys_path s;
                  Entry.os_environ := e' |}))).
Proof.
  unfold Entry._load_dotenv. split.
  - intros Hno import_dotenv load_dotenv. by rewrite Hno.
  - intros Hyes. rewrite Hyes. split; [done|]. split; [done|].
    intros o load_dotenv e' Hload.
    unfold Entry.try_pass, mbind, Entry.W_bind, Entry.import, mret,
      Entry.W_ret, Entry.get_proc, Entry.put_environ.
    by rewrite Hload.
Qed.

Lemma dotenv_loaded_only_with_file_witness :
  Entry._load_dotenv SampleProc.disk (inl (ImportError "dotenv"))
    SampleProc.load_dotenv ["srv"; "kshana"]
    (SampleProc.proc SampleProc.unpatched SampleProc.operator_env)
  = (Return tt, SampleProc.proc SampleProc.unpatched SampleProc.operator_env)
  /\ Entry._load_dotenv SampleProc.disk (inl (ImportError "dotenv"))
       SampleProc.load_dotenv ["opt"; "kshana"]
       (SampleProc.proc SampleProc.unpatched SampleProc.operator_env)
     = (Raise (ImportError "dotenv"),
        SampleProc.proc SampleProc.unpatched SampleProc.operator_env).
Proof.
  split.
  - apply (proj1 (dotenv_loaded_only_with_file SampleProc.disk
                    ["srv"; "kshana"]
                    (SampleProc.proc SampleProc.unpatched
                       SampleProc.operator_env))).
    reflexivity.
  - apply (proj2 (dotenv_loaded_only_with_file SampleProc.disk
                    ["opt"; "kshana"]
                    (SampleProc.proc SampleProc.unpatched
                       SampleProc.operator_env))).
    reflexivity.
Defined.

(** X16.  The wrapper's [main] is sequential and fails fast.  An error
    while the [.env] file is loaded ends it there: the two host defaults
    are not applied and the backend is not imported.  Once that part has
    returned, a failing import of the backend's [start] is raised as it is
    and [start] is not called, while the two host defaults stay applied. *)
Theorem wrapper_fails_fast
    (root_dir : path) (disk : node) (import_dotenv : exn + Entry.pyobj)
    (load_dotenv : path -> node -> gmap string string -> exn + gmap string string)
    (s s1 : Entry.Proc) :
  (forall e import_start start,
     Entry.prepare root_dir disk import_dotenv load_dotenv s = (Raise e, s1) ->
     Entry.main root_dir disk import_dotenv load_dotenv import_start start s
     = (Raise e, s1))
  /\ (forall e start,
        Entry.prepare root_dir disk import_dotenv load_dotenv s
        = (Return tt, s1) ->
        exists s2,
          Entry.main root_dir disk import_dotenv load_dotenv (inl e) start s
          = (Raise e, s2)
          /\ Entry.os_environ s2
             = Entry.setdefault "KSHANA_PUBLIC_HOST" "127.0.0.1"
                 (Entry.setdefault "KSHANA_HOST" "127.0.0.1"
                    (Entry.os_environ s1))
          /\ is_Some (Entry.os_environ s2 !! "KSHANA_HOST")
          /\ is_Some (Entry.os_environ s2 !! "KSHANA_PUBLIC_HOST")).
Proof.
  split.
  - intros e import_start start Hprep. unfold Entry.main.
    unfold mbind at 1. unfold Entry.W_bind at 1. by rewrite Hprep.
  - intros e start Hprep. unfold Entry.main.
    unfold mbind at 1. unfold Entry.W_bind at 1. rewrite Hprep.
    unfold Entry.default_hosts, Entry.environ_setdefault, mbind, Entry.W_bind,
      Entry.import, Entry.throw. cbn [Entry.os_environ Entry.tools
      Entry.assigned Entry.sys_path].
    eexists. split; [reflexivity|]. cbn [Entry.os_environ].
    split; [done|].
    rewrite !setdefault_lookup.
    split; repeat case_decide; simplify_eq; by eexists.
Qed.

Lemma wrapper_fails_fast_witness :
  exists s2,
    Entry.main ["opt"] SampleProc.disk (inr "dotenv.load_dotenv")
      SampleProc.load_dotenv (inl (ModuleNotFoundError "app")) SampleProc.start
      (SampleProc.proc SampleProc.unpatched SampleProc.operator_env)
    = (Raise (ModuleNotFoundError "app"), s2)
    /\ Entry.os_environ s2 !! "KSHANA_PUBLIC_HOST" = Some "127.0.0.1".
Proof.
  destruct (proj2 (wrapper_fails_fast ["opt"] SampleProc.disk
                     (inr "dotenv.load_dotenv") SampleProc.load_dotenv
                     (SampleProc.proc SampleProc.unpatched
                        SampleProc.operator_env) _)
              (ModuleNotFoundError "app") SampleProc.start eq_refl)
    as (s2 & Hmain & Henv & _).
  exists s2. split; [exact Hmain|]. rewrite Henv. vm_compute. reflexivity.
Defined.

(** * Order of the stages *)

(** X17.  The interpreter is checked only after the sources are staged, and
    nothing is rolled back: when source acquisition has returned and the
    interpreter then reports a version below 3.10, the pipeline raises the
    version error in the state acquisition left, so a tree that was just
    cloned or copied stays staged; nothing is started after the probe. *)
Theorem version_error_keeps_staged_sources
    (ROOT : path) (host : string) (environ : gmap string string)
    (subprocess_run : list string -> option path ->
                      option (gmap string string) -> node -> exn + node)
    (check_output : list string -> node -> exn + string)
    (text : string) (major minor patch : Z) (s s1 : State) :
  ensure_backend_sources ROOT subprocess_run s = (Return tt, s1) ->
  check_output (version_probe (python (args s1))) (fs s1) = inr text ->
  PyStr.int <$> PyStr.split "." (PyStr.strip text)
  = [Some major; Some minor; Some patch] ->
  major < 3 \/ (major = 3 /\ minor < 10) ->
  pipeline ROOT host environ subprocess_run check_output s
  = (Raise (RuntimeError
              (version_message (python (args s1)) (PyStr.strip text))),
     {| args := args s1; fs := fs s1;
        out := out s1 ++ [Probe (version_probe (python (args s1)))] |}).
Proof.
  intros Hacq Hprobe Hparse Hlt. unfold pipeline.
  unfold mbind at 1. unfold M_bind at 1. rewrite Hacq.
  unfold mbind at 1. unfold M_bind at 1. unfold get_args at 1.
  unfold mbind at 1. unfold M_bind at 1.
  unfold ensure_venv. unfold mbind at 1. unfold M_bind at 1.
  rewrite ensure_python_version_run. cbn zeta. rewrite Hprobe, Hparse.
  assert (Hb : pair_ltb (major, minor) (3, 10) = true).
  { unfold pair_ltb. cbn [fst snd]. destruct Hlt as [H|[-> H]].
    - apply Z.ltb_lt in H. by rewrite H.
    - apply Z.ltb_lt in H. by rewrite H. }
  by rewrite Hb.
Qed.

Lemma version_error_keeps_staged_sources_witness :
  let r := pipeline Sample.ROOT "Linux" Sample.environ Sample.subprocess_run
             Sample.check_output
             (Sample.start_at (Sample.parsed None "main" false "python3.9")
                Sample.fresh) in
  r.1 = Raise (RuntimeError (version_message "python3.9" "3.9.18"))
  /\ Fs.lookup (BACKEND_SRC_DIR Sample.ROOT) (fs r.2)
     = Some Sample.backend_tree.
Proof.
  cbn zeta.
  rewrite (version_error_keeps_staged_sources Sample.ROOT "Linux"
             Sample.environ Sample.subprocess_run Sample.check_output
             "3.9.18
" 3 9 18
             (Sample.start_at (Sample.parsed None "main" false "python3.9")
                Sample.fresh)
             (ensure_backend_sources Sample.ROOT Sample.subprocess_run
                (Sample.start_at (Sample.parsed None "main" false "python3.9")
                   Sample.fresh)).2).
  - split; reflexivity.
  - reflexivity.
  - reflexivity.
  - reflexivity.
  - right. split; [reflexivity | reflexivity].
Defined.
